(** * Access control of the DevKit platform API

    A shallow embedding of the server side of the repository
    (auth service, auth middleware, in-memory database, projects and
    users routers) and the properties of its access-control layer.

    Conventions of the embedding:
    - a JavaScript string is a [string]; its characters stand for the
      code units of the source string;
    - [Map<string, T>] is an insertion-ordered association list ([JsMap]);
    - the clock, the id generator and the uuid generator are inputs;
    - a request is handled in one piece: the middlewares and the handler
      of a route see the same store. *)

From Stdlib Require Import Bool Arith ZArith Lia List Ascii String.
Import ListNotations.
Local Open Scope string_scope.

(* ================================================================== *)
(** * JavaScript strings *)
(* ================================================================== *)

Module JsString.

(** [s.slice(n)] for a constant [n >= 0]. *)
Fixpoint slice (n : nat) (s : string) : string :=
  match n, s with
  | O, _ => s
  | S _, EmptyString => EmptyString
  | S k, String _ t => slice k t
  end.

(** The first [n] code units of [s]. *)
Fixpoint take (n : nat) (s : string) : string :=
  match n, s with
  | O, _ => EmptyString
  | S _, EmptyString => EmptyString
  | S k, String a t => String a (take k t)
  end.

(** [s.startsWith(p)] *)
Definition startsWith (s p : string) : bool := String.prefix p s.

(** [s.lastIndexOf(c)] for a needle of one character: the index of the
    last occurrence, and [-1] when there is none. *)
Fixpoint lastIndexOf (s : string) (c : ascii) : Z :=
  match s with
  | EmptyString => (-1)%Z
  | String a t =>
      let r := lastIndexOf t c in
      if (0 <=? r)%Z then (r + 1)%Z
      else if Ascii.eqb a c then 0%Z else (-1)%Z
  end.

(** An index argument of [substring] is clamped to [0 .. s.length]. *)
Definition clamp (s : string) (i : Z) : nat :=
  Nat.min (Z.to_nat i) (String.length s).

(** [s.substring(a, b)]: the arguments are clamped and swapped when
    [a > b]. *)
Definition substring (s : string) (a b : Z) : string :=
  let a' := clamp s a in
  let b' := clamp s b in
  let lo := Nat.min a' b' in
  let hi := Nat.max a' b' in
  take (hi - lo) (slice lo s).

(** [s.substring(a)]: up to the end of [s]. *)
Definition substringFrom (s : string) (a : Z) : string :=
  substring s a (Z.of_nat (String.length s)).

(** [!s] on a string: only the empty string is falsy. *)
Definition falsy (s : string) : bool :=
  match s with EmptyString => true | _ => false end.

(** The character [c] occurs in [s]. *)
Fixpoint contains (s : string) (c : ascii) : bool :=
  match s with
  | EmptyString => false
  | String a t => Ascii.eqb a c || contains t c
  end.

End JsString.

(* ================================================================== *)
(** * [Map<string, T>] *)
(* ================================================================== *)

Module JsMap.

(** Entries in insertion order. *)
Definition t (A : Type) : Type := list (string * A).

Definition empty {A} : t A := [].

Fixpoint get {A} (m : t A) (k : string) : option A :=
  match m with
  | [] => None
  | (k', v) :: r => if String.eqb k' k then Some v else get r k
  end.

(** [m.set(k, v)]: an existing key keeps its place, a new key goes to
    the end. *)
Fixpoint set {A} (m : t A) (k : string) (v : A) : t A :=
  match m with
  | [] => [(k, v)]
  | (k', v') :: r =>
      if String.eqb k' k then (k', v) :: r else (k', v') :: set r k v
  end.

(** [m.delete(k)] *)
Fixpoint delete {A} (m : t A) (k : string) : t A :=
  match m with
  | [] => []
  | (k', v') :: r =>
      if String.eqb k' k then delete r k else (k', v') :: delete r k
  end.

(** [Array.from(m.values())] *)
Definition values {A} (m : t A) : list A := List.map snd m.

End JsMap.

(* ================================================================== *)
(** * Shared types (types/index.ts) *)
(* ================================================================== *)

(** A property that is absent, [null], or holds a value. *)
Inductive JsOpt (A : Type) : Type :=
| Absent
| Null
| Value (a : A).
Arguments Absent {A}.
Arguments Null {A}.
Arguments Value {A} a.

(** [UserRole] is a string at run time; the permission table is indexed
    by strings. *)
Definition UserRole := string.

Record User := mkUser {
  user_id : string;
  user_email : string;
  user_name : string;
  user_role : UserRole;
  user_avatarUrl : JsOpt string;
  user_createdAt : string;
  user_updatedAt : string
}.

Inductive ProjectStatus := active | archived | deleted.

Definition ProjectStatus_eqb (a b : ProjectStatus) : bool :=
  match a, b with
  | active, active | archived, archived | deleted, deleted => true
  | _, _ => false
  end.

Record Project := mkProject {
  project_id : string;
  project_name : string;
  project_description : string;
  project_ownerId : string;
  project_status : ProjectStatus;
  project_createdAt : string;
  project_updatedAt : string
}.

Record AuthContext := mkAuthContext {
  ctx_userId : string;
  ctx_user : User;
  ctx_sessionId : string
}.

Record CreateUserInput := mkCreateUserInput {
  cu_email : string;
  cu_name : string;
  cu_role : option UserRole
}.

Record UpdateUserInput := mkUpdateUserInput {
  uu_name : option string;
  uu_role : option UserRole;
  uu_avatarUrl : JsOpt string
}.

Record CreateProjectInput := mkCreateProjectInput {
  cp_name : string;
  cp_description : option string
}.

Record UpdateProjectInput := mkUpdateProjectInput {
  up_name : option string;
  up_description : option string;
  up_status : option ProjectStatus
}.

Inductive Data :=
| DataUser (u : User)
| DataUsers (l : list User)
| DataProject (p : Project)
| DataProjects (l : list Project)
| DataDeleted (b : bool).

(** [ApiResponse<T>]: [success] with [data], or an [error] with a code
    and a message (the field errors of a validation failure are left
    out). *)
Inductive ApiResponse :=
| Success (data : Data)
| Failure (code message : string).

Record Response := mkResponse {
  status : nat;
  json : ApiResponse
}.

(* ================================================================== *)
(** * In-memory database (server/db) *)
(* ================================================================== *)

Record Database := mkDatabase {
  users : JsMap.t User;
  projects : JsMap.t Project
}.

(** What a request reads from its environment: [now()], and the two
    parts that [generateId] appends to its prefix,
    [Date.now().toString(36)] and six characters of
    [Math.random().toString(36)]. *)
Record Env := mkEnv {
  env_now : string;
  env_idTimestamp : string;
  env_idRandom : string
}.

Definition generateId (e : Env) (prefix : string) : string :=
  prefix ++ "_" ++ env_idTimestamp e ++ env_idRandom e.

Definition now (e : Env) : string := env_now e.

Definition seedDatabase : Database :=
  {| users :=
       JsMap.set (JsMap.set (JsMap.set JsMap.empty
         "usr_alice"
         (mkUser "usr_alice" "alice@acme.com" "Alice Chen" "admin"
            (Value "https://api.dicebear.com/7.x/avataaars/svg?seed=alice")
            "2024-01-15T10:00:00Z" "2024-01-15T10:00:00Z"))
         "usr_bob"
         (mkUser "usr_bob" "bob@acme.com" "Bob Martinez" "member"
            (Value "https://api.dicebear.com/7.x/avataaars/svg?seed=bob")
            "2024-02-01T14:30:00Z" "2024-02-01T14:30:00Z"))
         "usr_carol"
         (mkUser "usr_carol" "carol@acme.com" "Carol Kim" "viewer"
            (Value "https://api.dicebear.com/7.x/avataaars/svg?seed=carol")
            "2024-02-15T09:00:00Z" "2024-02-15T09:00:00Z");
     projects :=
       JsMap.set (JsMap.set (JsMap.set (JsMap.set JsMap.empty
         "prj_website"
         (mkProject "prj_website" "Marketing Website"
            "Main company marketing site with CMS integration"
            "usr_alice" active
            "2024-01-20T11:00:00Z" "2024-03-10T15:30:00Z"))
         "prj_mobile"
         (mkProject "prj_mobile" "Mobile App v2"
            "React Native app for iOS and Android"
            "usr_bob" active
            "2024-02-05T08:00:00Z" "2024-03-15T12:00:00Z"))
         "prj_api"
         (mkProject "prj_api" "Public API"
            "REST API for third-party integrations"
            "usr_alice" active
            "2024-02-10T16:00:00Z" "2024-03-12T09:45:00Z"))
         "prj_legacy"
         (mkProject "prj_legacy" "Legacy Dashboard"
            "Old admin dashboard - being phased out"
            "usr_alice" archived
            "2023-06-01T10:00:00Z" "2024-01-15T10:00:00Z") |}.

(* ================================================================== *)
(** * Auth service (server/services/auth.service.ts) *)
(* ================================================================== *)

Module AuthService.

Record ValidateTokenResult := mkResult {
  valid : bool;
  context : option AuthContext;
  error : option string
}.

Definition TOKEN_PREFIX : string := "session_".

(** The own properties of the object literal [PERMISSIONS]. *)
Definition PERMISSIONS : list (string * list string) :=
  [ ("admin", ["read"; "write"; "delete"; "manage:users";
               "manage:projects"; "manage:api-keys"]);
    ("member", ["read"; "write"; "manage:projects"; "manage:api-keys"]);
    ("viewer", ["read"]) ].

(** The properties that an object literal inherits from
    [Object.prototype]: eleven functions and the accessor [__proto__]. *)
Definition ObjectPrototype : list string :=
  [ "constructor"; "__defineGetter__"; "__defineSetter__";
    "hasOwnProperty"; "__lookupGetter__"; "__lookupSetter__";
    "isPrototypeOf"; "propertyIsEnumerable"; "toString"; "valueOf";
    "__proto__"; "toLocaleString" ].

(** The value of [PERMISSIONS[role]]. *)
Inductive Property :=
| PermissionList (l : list string)   (* an own property: an array *)
| Inherited (name : string)          (* found on the prototype *)
| Undefined.

Fixpoint ownProperty (o : list (string * list string)) (k : string)
  : option (list string) :=
  match o with
  | [] => None
  | (k', v) :: r => if String.eqb k' k then Some v else ownProperty r k
  end.

Definition includes (l : list string) (x : string) : bool :=
  existsb (String.eqb x) l.

(** [PERMISSIONS[role]]: own properties first, then the prototype. *)
Definition lookup (role : string) : Property :=
  match ownProperty PERMISSIONS role with
  | Some l => PermissionList l
  | None => if includes ObjectPrototype role then Inherited role
            else Undefined
  end.

(** [v || []]: arrays, functions and objects are truthy. *)
Definition orEmpty (v : Property) : Property :=
  match v with
  | Undefined => PermissionList []
  | _ => v
  end.

(** A call returns a value or throws. *)
Inductive Outcome (A : Type) : Type :=
| Returns (a : A)
| Throws (message : string).
Arguments Returns {A} a.
Arguments Throws {A} message.

(** [hasPermission(user, permission)]; a value found on the prototype
    has no [includes] method, and calling it is a TypeError. *)
Definition hasPermission (user : User) (permission : string)
  : Outcome bool :=
  match orEmpty (lookup (user_role user)) with
  | PermissionList userPermissions =>
      Returns (includes userPermissions permission)
  | _ => Throws "TypeError: userPermissions.includes is not a function"
  end.

(** [getPermissionsForRole(role)] *)
Definition getPermissionsForRole (role : UserRole) : Property :=
  orEmpty (lookup role).

(** [generateSessionToken(userId)]; [sessionId] is what [uuidv4()]
    returned. *)
Definition generateSessionToken (userId sessionId : string) : string :=
  TOKEN_PREFIX ++ userId ++ "_" ++ sessionId.

(** The part of [validateToken] before the user is looked up: the
    user id and the session id of the token, or the error message. *)
Definition parseToken (token : string) : string + (string * string) :=
  if JsString.falsy token
     || negb (JsString.startsWith token TOKEN_PREFIX)
  then inl "Invalid token format"
  else
    let tokenBody := JsString.slice (String.length TOKEN_PREFIX) token in
    let lastUnderscoreIndex := JsString.lastIndexOf tokenBody "_"%char in
    if (lastUnderscoreIndex =? -1)%Z then inl "Malformed token"
    else
      let userId := JsString.substring tokenBody 0 lastUnderscoreIndex in
      let sessionId :=
        JsString.substringFrom tokenBody (lastUnderscoreIndex + 1) in
      if JsString.falsy userId || JsString.falsy sessionId
      then inl "Malformed token"
      else inr (userId, sessionId).

(** [validateToken(token)] *)
Definition validateToken (db : Database) (token : string)
  : ValidateTokenResult :=
  match parseToken token with
  | inl e => mkResult false None (Some e)
  | inr (userId, sessionId) =>
      match JsMap.get (users db) userId with
      | None => mkResult false None (Some "User not found")
      | Some user =>
          mkResult true
            (Some (mkAuthContext (user_id user) user sessionId)) None
      end
  end.

(** [getUserById(userId)] *)
Definition getUserById (db : Database) (userId : string) : option User :=
  JsMap.get (users db) userId.

(** [getUserByEmail(email)] *)
Definition getUserByEmail (db : Database) (email : string) : option User :=
  List.find (fun user => String.eqb (user_email user) email)
            (JsMap.values (users db)).

End AuthService.

(* ================================================================== *)
(** * Request bodies and validation schemas *)
(* ================================================================== *)

(** A parsed JSON body. The members of an object are its own
    properties; a key occurs once. *)
#[local] Unset Elimination Schemes.
Inductive Json :=
| JNull
| JBool (b : bool)
| JNumber (n : Z)
| JString (s : string)
| JArray (items : list Json)
| JObject (members : list (string * Json)).
#[local] Set Elimination Schemes.

Module Zod.

(** A schema takes a value ([None] for [undefined]) and gives the
    parsed data, or [None] when [safeParse] reports no success. *)
Definition Schema (A : Type) : Type := option Json -> option A.

Fixpoint member (o : list (string * Json)) (k : string) : option Json :=
  match o with
  | [] => None
  | (k', v) :: r => if String.eqb k' k then Some v else member r k
  end.

(** [z.string()] with its checks. *)
Definition string_ (check : string -> bool) : Schema string :=
  fun v => match v with
           | Some (JString s) => if check s then Some s else None
           | _ => None
           end.

Definition min (n : nat) (s : string) : bool :=
  Nat.leb n (String.length s).
Definition max (n : nat) (s : string) : bool :=
  Nat.leb (String.length s) n.

Fixpoint assoc {A} (l : list (string * A)) (k : string) : option A :=
  match l with
  | [] => None
  | (k', v) :: r => if String.eqb k' k then Some v else assoc r k
  end.

(** [z.enum([...])]; each literal comes with the value it stands for. *)
Definition enum {A} (values : list (string * A)) : Schema A :=
  fun v => match v with
           | Some (JString s) => assoc values s
           | _ => None
           end.

(** [.optional()] *)
Definition optional {A} (s : Schema A) : Schema (option A) :=
  fun v => match v with
           | None => Some None
           | Some _ => option_map Some (s v)
           end.

(** [.optional().default(d)]: [undefined] is replaced by [d] before
    the inner schema runs. *)
Definition default {A} (s : Schema (option A)) (d : Json)
  : Schema (option A) :=
  fun v => match v with
           | None => s (Some d)
           | Some _ => s v
           end.

(** [.optional().nullable()] *)
Definition nullable {A} (s : Schema (option A)) : Schema (JsOpt A) :=
  fun v => match v with
           | Some JNull => Some Null
           | _ => match s v with
                  | Some (Some a) => Some (Value a)
                  | Some None => Some Absent
                  | None => None
                  end
           end.

(** [z.object({...})]: the value must be an object; unknown keys are
    stripped, so a schema only reads the members it names. *)
Definition object {A} (fields : list (string * Json) -> option A)
  : Schema A :=
  fun v => match v with
           | Some (JObject o) => fields o
           | _ => None
           end.

End Zod.

Definition roleEnum : list (string * UserRole) :=
  [("admin", "admin"); ("member", "member"); ("viewer", "viewer")].

Definition statusEnum : list (string * ProjectStatus) :=
  [("active", active); ("archived", archived); ("deleted", deleted)].

(** [a || b] on strings that may be [undefined]. *)
Definition orElse (a : option string) (b : string) : string :=
  match a with
  | Some s => if JsString.falsy s then b else s
  | None => b
  end.

(** Truthiness of a string that may be [undefined]. *)
Definition truthy (a : option string) : bool :=
  match a with
  | Some s => negb (JsString.falsy s)
  | None => false
  end.

(* ================================================================== *)
(** * Auth middleware (server/middleware/auth.middleware.ts) *)
(* ================================================================== *)

Module Middleware.

(** A middleware ends the request with a response, calls [next()],
    or throws. *)
Inductive Middleware (A : Type) : Type :=
| Respond (r : Response)
| Next (a : A)
| Raise (err : string).
Arguments Respond {A} r.
Arguments Next {A} a.
Arguments Raise {A} err.

Definition unauthorized (message : string) : Response :=
  mkResponse 401 (Failure "UNAUTHORIZED" message).

Definition forbidden (message : string) : Response :=
  mkResponse 403 (Failure "FORBIDDEN" message).

Definition notFound (message : string) : Response :=
  mkResponse 404 (Failure "NOT_FOUND" message).

Definition validationError : Response :=
  mkResponse 400 (Failure "VALIDATION_ERROR" "Invalid input").

Definition conflict (message : string) : Response :=
  mkResponse 409 (Failure "CONFLICT" message).

Definition ok (d : Data) : Response := mkResponse 200 (Success d).

Definition created (d : Data) : Response := mkResponse 201 (Success d).

(** [requireAuth]; on [next()] the context is what it stored in
    [req.auth]. *)
Definition requireAuth (db : Database) (authHeader : option string)
  : Middleware AuthContext :=
  match authHeader with
  | None => Respond (unauthorized "Authorization header required")
  | Some authHeader =>
      if JsString.falsy authHeader
      then Respond (unauthorized "Authorization header required")
      else if negb (JsString.startsWith authHeader "Bearer ")
      then Respond (unauthorized "Bearer token required")
      else
        let token := JsString.slice 7 authHeader in
        let result := AuthService.validateToken db token in
        match AuthService.valid result, AuthService.context result with
        | true, Some context => Next context
        | _, _ =>
            Respond (unauthorized
                       (orElse (AuthService.error result) "Invalid token"))
        end
  end.

(** [requirePermission(permission)] on [req.auth]. *)
Definition requirePermission (permission : string)
                             (auth : option AuthContext)
  : Middleware unit :=
  match auth with
  | None => Respond (unauthorized "Authentication required")
  | Some auth =>
      match AuthService.hasPermission (ctx_user auth) permission with
      | AuthService.Throws err => Raise err
      | AuthService.Returns false =>
          Respond (forbidden ("Permission denied: " ++ permission))
      | AuthService.Returns true => Next tt
      end
  end.

(** [requireAdmin] *)
Definition requireAdmin (auth : option AuthContext) : Middleware unit :=
  match auth with
  | None => Respond (unauthorized "Authentication required")
  | Some auth =>
      if negb (String.eqb (user_role (ctx_user auth)) "admin")
      then Respond (forbidden "Admin access required")
      else Next tt
  end.

(** The global error handler of the server entry point. *)
Definition errorHandler (err : string) : Response :=
  mkResponse 500 (Failure "INTERNAL_ERROR" "An unexpected error occurred").

End Middleware.
Import Middleware.

(* ================================================================== *)
(** * Projects API (server/api/projects) *)
(* ================================================================== *)

Module ProjectsApi.

Definition createProjectSchema : Zod.Schema CreateProjectInput :=
  Zod.object (fun o =>
    match Zod.string_ (fun s => Zod.min 1 s && Zod.max 100 s)
                      (Zod.member o "name"),
          Zod.default (Zod.optional (Zod.string_ (Zod.max 500)))
                      (JString "") (Zod.member o "description")
    with
    | Some name, Some description =>
        Some (mkCreateProjectInput name description)
    | _, _ => None
    end).

Definition updateProjectSchema : Zod.Schema UpdateProjectInput :=
  Zod.object (fun o =>
    match Zod.optional (Zod.string_ (fun s => Zod.min 1 s && Zod.max 100 s))
                       (Zod.member o "name"),
          Zod.optional (Zod.string_ (Zod.max 500))
                       (Zod.member o "description"),
          Zod.optional (Zod.enum statusEnum) (Zod.member o "status")
    with
    | Some name, Some description, Some st =>
        Some (mkUpdateProjectInput name description st)
    | _, _, _ => None
    end).

(** [project.ownerId === req.auth!.userId] *)
Definition isOwner (auth : AuthContext) (project : Project) : bool :=
  String.eqb (project_ownerId project) (ctx_userId auth).

(** [req.auth!.user.role === 'admin'] *)
Definition isAdmin (auth : AuthContext) : bool :=
  String.eqb (user_role (ctx_user auth)) "admin".

(** [{...project, ...input, updatedAt}] *)
Definition spread (project : Project) (input : UpdateProjectInput)
                  (updatedAt : string) : Project :=
  mkProject
    (project_id project)
    (match up_name input with
     | Some n => n | None => project_name project end)
    (match up_description input with
     | Some d => d | None => project_description project end)
    (project_ownerId project)
    (match up_status input with
     | Some s => s | None => project_status project end)
    (project_createdAt project)
    updatedAt.

(** GET /api/projects *)
Definition listProjects (db : Database) (auth : AuthContext)
  : Response * Database :=
  let userId := ctx_userId auth in
  let isAdmin := isAdmin auth in
  let projects :=
    List.filter
      (fun p =>
         if ProjectStatus_eqb (project_status p) deleted then false
         else if isAdmin then true
         else String.eqb (project_ownerId p) userId)
      (JsMap.values (projects db)) in
  (ok (DataProjects projects), db).

(** [db.projects.get(id)], with [!project || project.status ===
    'deleted'] folded into [None]. *)
Definition find (db : Database) (id : string) : option Project :=
  match JsMap.get (projects db) id with
  | None => None
  | Some project =>
      if ProjectStatus_eqb (project_status project) deleted then None
      else Some project
  end.

(** GET /api/projects/:id *)
Definition getProject (db : Database) (auth : AuthContext) (id : string)
  : Response * Database :=
  match find db id with
  | None => (notFound "Project not found", db)
  | Some project =>
      let isOwner := isOwner auth project in
      let isAdmin := isAdmin auth in
      if negb isOwner && negb isAdmin
      then (forbidden "Access denied", db)
      else (ok (DataProject project), db)
  end.

(** POST /api/projects *)
Definition createProject (e : Env) (db : Database) (auth : AuthContext)
                  (body : option Json) : Response * Database :=
  match createProjectSchema body with
  | None => (validationError, db)
  | Some input =>
      let timestamp := now e in
      let project :=
        mkProject (generateId e "prj")
                  (cp_name input)
                  (orElse (cp_description input) "")
                  (ctx_userId auth)
                  active
                  timestamp
                  timestamp in
      (created (DataProject project),
       mkDatabase (users db)
                  (JsMap.set (projects db) (project_id project) project))
  end.

(** PUT /api/projects/:id *)
Definition updateProject (e : Env) (db : Database) (auth : AuthContext)
                  (id : string) (body : option Json)
  : Response * Database :=
  match find db id with
  | None => (notFound "Project not found", db)
  | Some project =>
      let isOwner := isOwner auth project in
      let isAdmin := isAdmin auth in
      if negb isOwner && negb isAdmin
      then (forbidden "Only project owners can update projects", db)
      else
        match updateProjectSchema body with
        | None => (validationError, db)
        | Some input =>
            let updatedProject := spread project input (now e) in
            (ok (DataProject updatedProject),
             mkDatabase (users db)
                        (JsMap.set (projects db) id updatedProject))
        end
  end.

(** DELETE /api/projects/:id *)
Definition deleteProject (e : Env) (db : Database) (auth : AuthContext)
                  (id : string) : Response * Database :=
  match find db id with
  | None => (notFound "Project not found", db)
  | Some project =>
      let isOwner := isOwner auth project in
      let isAdmin := isAdmin auth in
      if negb isOwner && negb isAdmin
      then (forbidden "Only project owners can delete projects", db)
      else
        let updatedProject :=
          mkProject (project_id project) (project_name project)
                    (project_description project) (project_ownerId project)
                    deleted
                    (project_createdAt project) (now e) in
        (ok (DataDeleted true),
         mkDatabase (users db)
                    (JsMap.set (projects db) id updatedProject))
  end.

End ProjectsApi.

(* ================================================================== *)
(** * Users API (server/api/users) *)
(* ================================================================== *)

Module UsersApi.

Section Handlers.

(** The format checks of the validation library: [.email()] and
    [.url()]. *)
Variable isEmail : string -> bool.
Variable isUrl : string -> bool.

Definition createUserSchema : Zod.Schema CreateUserInput :=
  Zod.object (fun o =>
    match Zod.string_ (fun s => isEmail s && Zod.max 255 s)
                      (Zod.member o "email"),
          Zod.string_ (fun s => Zod.min 1 s && Zod.max 100 s)
                      (Zod.member o "name"),
          Zod.default (Zod.optional (Zod.enum roleEnum))
                      (JString "member") (Zod.member o "role")
    with
    | Some email, Some name, Some role =>
        Some (mkCreateUserInput email name role)
    | _, _, _ => None
    end).

Definition updateUserSchema : Zod.Schema UpdateUserInput :=
  Zod.object (fun o =>
    match Zod.optional (Zod.string_ (fun s => Zod.min 1 s && Zod.max 100 s))
                       (Zod.member o "name"),
          Zod.optional (Zod.enum roleEnum) (Zod.member o "role"),
          Zod.nullable (Zod.optional (Zod.string_ isUrl))
                       (Zod.member o "avatarUrl")
    with
    | Some name, Some role, Some avatarUrl =>
        Some (mkUpdateUserInput name role avatarUrl)
    | _, _, _ => None
    end).

(** [{...user, ...input, updatedAt}] *)
Definition spread (user : User) (input : UpdateUserInput)
                  (updatedAt : string) : User :=
  mkUser
    (user_id user)
    (user_email user)
    (match uu_name input with
     | Some n => n | None => user_name user end)
    (match uu_role input with
     | Some r => r | None => user_role user end)
    (match uu_avatarUrl input with
     | Absent => user_avatarUrl user | a => a end)
    (user_createdAt user)
    updatedAt.

(** GET /api/users, after [requirePermission('manage:users')] *)
Definition listUsers (db : Database) : Response * Database :=
  let users := JsMap.values (users db) in
  (ok (DataUsers users), db).

(** GET /api/users/me *)
Definition me (db : Database) (auth : AuthContext)
  : Response * Database :=
  (ok (DataUser (ctx_user auth)), db).

(** GET /api/users/:id *)
Definition getUser (db : Database) (id : string) : Response * Database :=
  match JsMap.get (users db) id with
  | None => (notFound "User not found", db)
  | Some user => (ok (DataUser user), db)
  end.

(** POST /api/users, after [requirePermission('manage:users')] *)
Definition createUser (e : Env) (db : Database) (body : option Json)
  : Response * Database :=
  match createUserSchema body with
  | None => (validationError, db)
  | Some input =>
      if List.existsb
           (fun existingUser =>
              String.eqb (user_email existingUser) (cu_email input))
           (JsMap.values (users db))
      then (conflict "A user with this email already exists", db)
      else
        let timestamp := now e in
        let user :=
          mkUser (generateId e "usr")
                 (cu_email input)
                 (cu_name input)
                 (orElse (cu_role input) "member")
                 Absent
                 timestamp
                 timestamp in
        (created (DataUser user),
         mkDatabase (JsMap.set (users db) (user_id user) user)
                    (projects db))
  end.

(** PUT /api/users/:id *)
Definition updateUser (e : Env) (db : Database) (auth : AuthContext)
                  (id : string) (body : option Json)
  : Response * Database :=
  match JsMap.get (users db) id with
  | None => (notFound "User not found", db)
  | Some user =>
      let isSelf := String.eqb (ctx_userId auth) id in
      let isAdmin := String.eqb (user_role (ctx_user auth)) "admin" in
      if negb isSelf && negb isAdmin
      then (forbidden "Cannot update other users", db)
      else
        match updateUserSchema body with
        | None => (validationError, db)
        | Some input =>
            if truthy (uu_role input) && negb isAdmin
            then (forbidden "Only admins can change user roles", db)
            else
              let updatedUser := spread user input (now e) in
              (ok (DataUser updatedUser),
               mkDatabase (JsMap.set (users db) id updatedUser)
                          (projects db))
        end
  end.

(** DELETE /api/users/:id, after [requirePermission('manage:users')] *)
Definition deleteUser (db : Database) (auth : AuthContext) (id : string)
  : Response * Database :=
  match JsMap.get (users db) id with
  | None => (notFound "User not found", db)
  | Some user =>
      if String.eqb (ctx_userId auth) id
      then (forbidden "Cannot delete your own account", db)
      else
        (ok (DataDeleted true),
         mkDatabase (JsMap.delete (users db) id) (projects db))
  end.

End Handlers.

End UsersApi.

(* ================================================================== *)
(** * Server entry point: the routes of the two routers *)
(* ================================================================== *)

(** The entry of a router that a request matched, with its [:id]
    parameter. The users router registers [/me] before [/:id]. *)
Inductive Route :=
| GET_projects
| GET_projects_id (id : string)
| POST_projects
| PUT_projects_id (id : string)
| DELETE_projects_id (id : string)
| GET_users
| GET_users_me
| GET_users_id (id : string)
| POST_users
| PUT_users_id (id : string)
| DELETE_users_id (id : string).

Record Request := mkRequest {
  req_route : Route;
  req_authorization : option string;
  req_body : option Json
}.

Section Server.

(** The format checks of the validation library. *)
Variable isEmail : string -> bool.
Variable isUrl : string -> bool.

(** A route guarded by [requirePermission(permission)]. *)
Definition withPermission (permission : string) (db : Database)
                          (auth : AuthContext)
                          (handler : Response * Database)
  : Response * Database :=
  match requirePermission permission (Some auth) with
  | Respond r => (r, db)
  | Raise err => (errorHandler err, db)
  | Next _ => handler
  end.

(** The middlewares and the handler of the matched route, in the order
    of their registration; every route starts with [requireAuth]. *)
Definition handle (e : Env) (db : Database) (req : Request)
  : Response * Database :=
  match requireAuth db (req_authorization req) with
  | Respond r => (r, db)
  | Raise err => (errorHandler err, db)
  | Next auth =>
      match req_route req with
      | GET_projects => ProjectsApi.listProjects db auth
      | GET_projects_id id => ProjectsApi.getProject db auth id
      | POST_projects => ProjectsApi.createProject e db auth (req_body req)
      | PUT_projects_id id =>
          ProjectsApi.updateProject e db auth id (req_body req)
      | DELETE_projects_id id => ProjectsApi.deleteProject e db auth id
      | GET_users =>
          withPermission "manage:users" db auth (UsersApi.listUsers db)
      | GET_users_me => UsersApi.me db auth
      | GET_users_id id => UsersApi.getUser db id
      | POST_users =>
          withPermission "manage:users" db auth
            (UsersApi.createUser isEmail e db (req_body req))
      | PUT_users_id id =>
          UsersApi.updateUser isUrl e db auth id (req_body req)
      | DELETE_users_id id =>
          withPermission "manage:users" db auth
            (UsersApi.deleteUser db auth id)
      end
  end.

(** The store after a sequence of requests, each with its own
    environment. *)
Fixpoint run (db : Database) (rs : list (Env * Request)) : Database :=
  match rs with
  | [] => db
  | (e, r) :: rest => run (snd (handle e db r)) rest
  end.

End Server.

(** The outcome of [express.json()], which the server entry point
    registers before the two routers: it stores the parsed body in
    [req.body] and calls [next()], or passes an error to [next]
    (a body that is not valid JSON, or is not an object or an array,
    or is too large). *)
Inductive JsonBody :=
| BodyParsed (body : option Json)
| BodyError (err : string).

(** The app of the server entry point, for a request that matches a
    route of the two routers: [express.json()] runs before the router;
    an error of it goes to the global error handler, and the routers
    are not reached. *)
Definition app (isEmail isUrl : string -> bool) (e : Env) (db : Database)
               (route : Route) (authorization : option string)
               (parsed : JsonBody) : Response * Database :=
  match parsed with
  | BodyError err => (errorHandler err, db)
  | BodyParsed body =>
      handle isEmail isUrl e db (mkRequest route authorization body)
  end.

(* ================================================================== *)
(** * Well-formed stores and session ids *)
(* ================================================================== *)

(** The literals of the [UserRole] type. *)
Definition enumeratedRoles : list string := ["admin"; "member"; "viewer"].

(** A user is stored under its own id, with a role of the [UserRole]
    type. The seed data has this shape and every route keeps it. *)
Definition userWellFormed (entry : string * User) : bool :=
  String.eqb (user_id (snd entry)) (fst entry)
  && AuthService.includes enumeratedRoles (user_role (snd entry)).

Definition wellFormed (db : Database) : bool :=
  List.forallb userWellFormed (users db).

(** The characters of the text form of a uuid: lower-case hexadecimal
    digits and the hyphen. *)
Definition uuidChar (c : ascii) : bool :=
  let n := nat_of_ascii c in
  (Nat.leb 48 n && Nat.leb n 57)       (* 0-9 *)
  || (Nat.leb 97 n && Nat.leb n 102)   (* a-f *)
  || Nat.eqb n 45.                     (* - *)

Fixpoint allChars (p : ascii -> bool) (s : string) : bool :=
  match s with
  | EmptyString => true
  | String a t => p a && allChars p t
  end.

(** The shape of a value of [uuidv4()]: 36 characters of the uuid
    alphabet. *)
Definition uuidShape (s : string) : bool :=
  Nat.eqb (String.length s) 36 && allChars uuidChar s.

(** Statuses with which a route reports a denial or an error. *)
Definition isErrorStatus (n : nat) : bool :=
  Nat.eqb n 401 || Nat.eqb n 403 || Nat.eqb n 404
  || Nat.eqb n 400 || Nat.eqb n 409.

(* ================================================================== *)
(** * API client (hooks/useApi.ts) *)
(* ================================================================== *)

Module UseApi.

Definition DEMO_TOKEN : string := "session_usr_alice_demo123".

(** The [Authorization] header that [apiFetch] sends. *)
Definition authorizationHeader : option string :=
  Some ("Bearer " ++ DEMO_TOKEN).

(** The request that [apiFetch] makes for a route and a body. *)
Definition request (route : Route) (body : option Json) : Request :=
  mkRequest route authorizationHeader body.

(** [apiFetch] on the response of the server: it looks at [success]
    only, returns [data], or throws with
    [data.error?.message || 'Request failed']. *)
Definition apiFetch (response : Response) : AuthService.Outcome Data :=
  match json response with
  | Success data => AuthService.Returns data
  | Failure _ message =>
      AuthService.Throws (orElse (Some message) "Request failed")
  end.

End UseApi.

(* ================================================================== *)
(** * Further invariants of the store *)
(* ================================================================== *)

(** No string occurs twice. *)
Fixpoint distinct (l : list string) : bool :=
  match l with
  | [] => true
  | x :: r => negb (AuthService.includes r x) && distinct r
  end.

(** No two stored users have the same email. *)
Definition emailsUnique (db : Database) : bool :=
  distinct (List.map user_email (JsMap.values (users db))).

(** A project is stored under its own id, and its name and description
    are within the bounds of the validation schemas. *)
Definition projectValid (entry : string * Project) : bool :=
  String.eqb (project_id (snd entry)) (fst entry)
  && Zod.min 1 (project_name (snd entry))
  && Zod.max 100 (project_name (snd entry))
  && Zod.max 500 (project_description (snd entry)).

Definition projectsValid (db : Database) : bool :=
  List.forallb projectValid (projects db).

(** The routes registered with [router.get]. *)
Definition isGet (r : Route) : bool :=
  match r with
  | GET_projects | GET_projects_id _ | GET_users | GET_users_me
  | GET_users_id _ => true
  | _ => false
  end.

(** The routes of the users router. *)
Definition isUsersRoute (r : Route) : bool :=
  match r with
  | GET_users | GET_users_me | GET_users_id _ | POST_users
  | PUT_users_id _ | DELETE_users_id _ => true
  | _ => false
  end.

(** The projects that a response carries. *)
Definition projectsOf (r : Response) : list Project :=
  match json r with
  | Success (DataProject p) => [p]
  | Success (DataProjects l) => l
  | _ => []
  end.

(* ================================================================== *)
(** * Requests against the seed data *)
(* ================================================================== *)

(** A user with a given role. *)
Definition withRole (role : UserRole) : User :=
  mkUser "usr_x" "x@acme.com" "X" role Absent
         "2024-01-01T00:00:00Z" "2024-01-01T00:00:00Z".

(** Format checks that accept every string. *)
Definition anyFormat (s : string) : bool := true.

Definition testEnv : Env :=
  mkEnv "2024-04-01T00:00:00Z" "lugq1s00" "k3x9ab".

Definition asAlice : option string := Some "Bearer session_usr_alice_s1".
Definition asBob : option string := Some "Bearer session_usr_bob_s2".
Definition asCarol : option string := Some "Bearer session_usr_carol_s3".

Definition serve (db : Database) (req : Request) : Response * Database :=
  handle anyFormat anyFormat testEnv db req.

(** The store after Bob deleted his project. *)
Definition afterDelete : Database :=
  snd (serve seedDatabase
         (mkRequest (DELETE_projects_id "prj_mobile") asBob None)).

(** Case analysis on the first [match] or [if] of the goal. *)
Ltac break_match :=
  match goal with
  | |- context [match ?x with _ => _ end] =>
      first [is_var x; destruct x | destruct x eqn:?]
  end.

(* ================================================================== *)
(** * Properties of the string operations *)
(* ================================================================== *)

Module JsStringFacts.
Import JsString.

Lemma slice_app (a b : string) : slice (String.length a) (a ++ b) = b.
Proof. induction a as [|x a IH]; simpl; auto. Qed.

Lemma slice_app_cons (a b : string) (c : ascii) :
  slice (S (String.length a)) (a ++ String c b) = b.
Proof. induction a as [|x a IH]; simpl; auto. Qed.

Lemma take_app (a b : string) : take (String.length a) (a ++ b) = a.
Proof.
  induction a as [|x a IH]; simpl.
  - destruct b; reflexivity.
  - now rewrite IH.
Qed.

Lemma take_slice (n : nat) (s : string) : take n s ++ slice n s = s.
Proof.
  revert s; induction n as [|n IH]; intros s; simpl; auto.
  destruct s as [|x s]; simpl; auto. now rewrite IH.
Qed.

Lemma take_all (n : nat) (s : string) :
  String.length s <= n -> take n s = s.
Proof.
  revert s; induction n as [|n IH]; intros [|x s] H; simpl in *;
    auto; try lia.
  rewrite IH; auto; lia.
Qed.

Lemma length_slice (n : nat) (s : string) :
  String.length (slice n s) = String.length s - n.
Proof.
  revert s; induction n as [|n IH]; intros [|x s]; simpl; auto.
Qed.

Lemma length_app (a b : string) :
  String.length (a ++ b) = String.length a + String.length b.
Proof. induction a as [|x a IH]; simpl; auto. Qed.

Lemma startsWith_app (p s : string) : startsWith (p ++ s) p = true.
Proof.
  unfold startsWith. induction p as [|x p IH]; simpl.
  - destruct s; reflexivity.
  - destruct (ascii_dec x x) as [_|n]; [exact IH | now destruct n].
Qed.

Lemma startsWith_split (s p : string) :
  startsWith s p = true -> s = p ++ slice (String.length p) s.
Proof.
  unfold startsWith. revert s; induction p as [|x p IH]; intros s H.
  - reflexivity.
  - destruct s as [|y s]; simpl in H; [discriminate|].
    destruct (ascii_dec x y) as [->|]; [|discriminate].
    simpl. f_equal. now apply IH.
Qed.

Lemma falsy_empty (s : string) : falsy s = true <-> s = "".
Proof. destruct s; simpl; split; intros H; congruence. Qed.

Lemma falsy_nonempty (s : string) : s <> "" -> falsy s = false.
Proof. destruct s; simpl; congruence. Qed.

(** [lastIndexOf] stays within [-1 .. length - 1]. *)
Lemma lastIndexOf_range (s : string) (c : ascii) :
  (-1 <= lastIndexOf s c < Z.of_nat (String.length s))%Z.
Proof.
  induction s as [|a s IH]; simpl; [lia|].
  destruct (Z.leb_spec 0 (lastIndexOf s c)); [lia|].
  destruct (Ascii.eqb a c); lia.
Qed.

(** [-1] means that the character does not occur. *)
Lemma lastIndexOf_none (s : string) (c : ascii) :
  lastIndexOf s c = (-1)%Z <-> contains s c = false.
Proof.
  induction s as [|a s IH]; simpl; [tauto|].
  pose proof (lastIndexOf_range s c) as R.
  destruct (Z.leb_spec 0 (lastIndexOf s c)) as [P|N].
  - split; intros H; [lia|].
    apply orb_false_iff in H as [_ H]. apply IH in H. lia.
  - assert (E : lastIndexOf s c = (-1)%Z) by lia.
    apply IH in E. rewrite E, orb_false_r.
    destruct (Ascii.eqb a c); split; intros H; congruence.
Qed.

(** The index found is the position of an occurrence after which the
    character does not occur again. *)
Lemma lastIndexOf_app (a b : string) (c : ascii) :
  contains b c = false ->
  lastIndexOf (a ++ String c b) c = Z.of_nat (String.length a).
Proof.
  intros H. induction a as [|x a IH].
  - cbn [append lastIndexOf String.length].
    apply lastIndexOf_none in H. rewrite H. simpl.
    now rewrite Ascii.eqb_refl.
  - cbn [append lastIndexOf String.length]. rewrite IH.
    destruct (Z.leb_spec 0 (Z.of_nat (String.length a))); lia.
Qed.

Lemma lastIndexOf_split (s : string) (c : ascii) (i : nat) :
  lastIndexOf s c = Z.of_nat i ->
  s = take i s ++ String c (slice (S i) s)
  /\ contains (slice (S i) s) c = false.
Proof.
  revert i; induction s as [|a s IH]; intros i H.
  - simpl in H. lia.
  - cbn [lastIndexOf] in H.
    destruct (Z.leb_spec 0 (lastIndexOf s c)) as [P|N].
    + destruct i as [|i]; [lia|].
      destruct (IH i) as [E F]; [lia|].
      split; [|exact F].
      change (String a s = String a (take i s ++ String c (slice (S i) s))).
      f_equal. exact E.
    + destruct (Ascii.eqb_spec a c) as [->|]; [|lia].
      assert (i = 0) as -> by lia.
      assert (E : lastIndexOf s c = (-1)%Z)
        by (pose proof (lastIndexOf_range s c); lia).
      apply lastIndexOf_none in E. simpl. auto.
Qed.

(** [substring(0, i)] and [substring(i + 1)] within the string. *)
Lemma substring_0 (s : string) (i : nat) :
  i <= String.length s -> substring s 0 (Z.of_nat i) = take i s.
Proof.
  intros H. unfold substring, clamp.
  rewrite Nat2Z.id. simpl Z.to_nat.
  replace (Nat.min 0 (String.length s)) with 0 by lia.
  replace (Nat.min i (String.length s)) with i by lia.
  replace (Nat.min 0 i) with 0 by lia.
  replace (Nat.max 0 i - 0) with i by lia.
  reflexivity.
Qed.

Lemma substringFrom_slice (s : string) (i : nat) :
  i <= String.length s -> substringFrom s (Z.of_nat i) = slice i s.
Proof.
  intros H. unfold substringFrom, substring, clamp.
  rewrite !Nat2Z.id.
  replace (Nat.min i (String.length s)) with i by lia.
  replace (Nat.min (String.length s) (String.length s))
    with (String.length s) by lia.
  replace (Nat.min i (String.length s)) with i by lia.
  replace (Nat.max i (String.length s)) with (String.length s) by lia.
  apply take_all. rewrite length_slice. lia.
Qed.

End JsStringFacts.

(* ================================================================== *)
(** * Properties of the map operations *)
(* ================================================================== *)

Module JsMapFacts.
Import JsMap.

Section Maps.
Context {A : Type}.
Implicit Types (m : t A) (k : string) (v : A).

Lemma get_set_same m k v : get (set m k v) k = Some v.
Proof.
  induction m as [|[k' v'] m IH]; simpl.
  - now rewrite String.eqb_refl.
  - destruct (String.eqb k' k) eqn:E; simpl; rewrite E; auto.
Qed.

Lemma get_set_other m k k' v : k' <> k -> get (set m k v) k' = get m k'.
Proof.
  intros N. induction m as [|[k0 v0] m IH]; simpl.
  - destruct (String.eqb_spec k k'); congruence.
  - destruct (String.eqb_spec k0 k) as [->|]; simpl.
    + destruct (String.eqb_spec k k'); congruence.
    + now rewrite IH.
Qed.

Lemma get_delete_same m k : get (delete m k) k = None.
Proof.
  induction m as [|[k' v'] m IH]; simpl; auto.
  destruct (String.eqb k' k) eqn:E; simpl; [|rewrite E]; auto.
Qed.

Lemma get_delete_other m k k' : k' <> k -> get (delete m k) k' = get m k'.
Proof.
  intros N. induction m as [|[k0 v0] m IH]; simpl; auto.
  destruct (String.eqb_spec k0 k) as [->|]; simpl.
  - destruct (String.eqb_spec k k'); congruence.
  - now rewrite IH.
Qed.

(** A property of all entries holds of the entry that [get] finds. *)
Lemma forallb_get (P : string * A -> bool) m k v :
  forallb P m = true -> get m k = Some v -> P (k, v) = true.
Proof.
  induction m as [|[k' v'] m IH]; simpl; [discriminate|].
  intros H G. apply andb_true_iff in H as [H1 H2].
  destruct (String.eqb_spec k' k) as [->|]; [|auto].
  now injection G as <-.
Qed.

Lemma forallb_set (P : string * A -> bool) m k v :
  forallb P m = true -> P (k, v) = true -> forallb P (set m k v) = true.
Proof.
  intros H Pk. induction m as [|[k' v'] m IH]; simpl in *.
  - now rewrite Pk.
  - apply andb_true_iff in H as [H1 H2].
    destruct (String.eqb_spec k' k) as [->|]; simpl.
    + now rewrite Pk, H2.
    + now rewrite H1, IH.
Qed.

Lemma forallb_delete (P : string * A -> bool) m k :
  forallb P m = true -> forallb P (delete m k) = true.
Proof.
  intros H. induction m as [|[k' v'] m IH]; simpl in *; auto.
  apply andb_true_iff in H as [H1 H2].
  destruct (String.eqb k' k); simpl; [|rewrite H1]; auto.
Qed.

(** What [get] finds is among the values. *)
Lemma get_values m k v : get m k = Some v -> In v (values m).
Proof.
  induction m as [|[k' v'] m IH]; simpl; [discriminate|].
  destruct (String.eqb k' k); intros G; [left; congruence | right; auto].
Qed.

End Maps.
End JsMapFacts.

(* ================================================================== *)
(** * Properties of the auth service *)
(* ================================================================== *)

Module AuthServiceFacts.
Import JsString JsStringFacts AuthService.

Lemma includes_In (l : list string) (x : string) :
  includes l x = true <-> In x l.
Proof.
  unfold includes. rewrite existsb_exists. split.
  - intros (y & I & E). apply String.eqb_eq in E. now subst.
  - intros I. exists x. now rewrite String.eqb_refl.
Qed.

(** Parsing a minted token whose session part holds no separator: the
    two parts come back, unless one of them is empty. *)
Lemma parseToken_generate_split (userId sessionId : string) :
  contains sessionId "_" = false ->
  parseToken (generateSessionToken userId sessionId)
  = if falsy userId || falsy sessionId then inl "Malformed token"
    else inr (userId, sessionId).
Proof.
  intros Hc. unfold parseToken, generateSessionToken.
  rewrite startsWith_app, slice_app.
  change (falsy (TOKEN_PREFIX ++ userId ++ "_" ++ sessionId)) with false.
  change (userId ++ "_" ++ sessionId)
    with (userId ++ String "_" sessionId).
  cbn [orb negb]. rewrite (lastIndexOf_app _ _ _ Hc).
  destruct (Z.eqb_spec (Z.of_nat (String.length userId)) (-1)); [lia|].
  assert (L : String.length (userId ++ String "_" sessionId)
              = String.length userId + S (String.length sessionId))
    by (now rewrite length_app).
  rewrite substring_0 by lia. rewrite take_app.
  replace (Z.of_nat (String.length userId) + 1)%Z
    with (Z.of_nat (S (String.length userId))) by lia.
  rewrite substringFrom_slice by lia. now rewrite slice_app_cons.
Qed.

Lemma parseToken_generate (userId sessionId : string) :
  userId <> "" -> sessionId <> "" -> contains sessionId "_" = false ->
  parseToken (generateSessionToken userId sessionId)
  = inr (userId, sessionId).
Proof.
  intros Hu Hs Hc. rewrite (parseToken_generate_split _ _ Hc).
  now rewrite (falsy_nonempty _ Hu), (falsy_nonempty _ Hs).
Qed.

(** A token that parses is the minting of the two parts found, and the
    session part holds no separator: the split is at the last one. *)
Lemma parseToken_inr (token userId sessionId : string) :
  parseToken token = inr (userId, sessionId) ->
  token = generateSessionToken userId sessionId
  /\ userId <> "" /\ sessionId <> ""
  /\ contains sessionId "_" = false.
Proof.
  unfold parseToken, generateSessionToken.
  destruct (falsy token); [discriminate|].
  destruct (startsWith token TOKEN_PREFIX) eqn:P; [|discriminate].
  cbn [orb negb]. apply startsWith_split in P.
  set (tokenBody := slice (String.length TOKEN_PREFIX) token) in *.
  pose proof (lastIndexOf_range tokenBody "_") as R.
  destruct (Z.eqb_spec (lastIndexOf tokenBody "_") (-1)); [discriminate|].
  destruct (Z_of_nat_complete (lastIndexOf tokenBody "_")) as [i E]; [lia|].
  rewrite E in *.
  destruct (lastIndexOf_split _ _ _ E) as [S1 S2].
  rewrite substring_0 by lia.
  replace (Z.of_nat i + 1)%Z with (Z.of_nat (S i)) by lia.
  rewrite substringFrom_slice by lia.
  destruct (falsy (take i tokenBody)) eqn:F1; [discriminate|].
  destruct (falsy (slice (S i) tokenBody)) eqn:F2; [discriminate|].
  cbn [orb]. intros H. injection H as <- <-.
  repeat split.
  - rewrite P at 1. f_equal. exact S1.
  - intros N. apply falsy_empty in N. exact (eq_true_false_abs _ N F1).
  - intros N. apply falsy_empty in N. exact (eq_true_false_abs _ N F2).
  - exact S2.
Qed.

(** [validateToken] reports a parse error as it is, without a lookup. *)
Lemma validateToken_parse_error (db : Database) (token e : string) :
  parseToken token = inl e ->
  validateToken db token = mkResult false None (Some e).
Proof. unfold validateToken. now intros ->. Qed.

(** A valid result carries a stored user under its own id. *)
Lemma validateToken_valid (db : Database) (token : string)
      (c : AuthContext) :
  context (validateToken db token) = Some c ->
  exists key, JsMap.get (users db) key = Some (ctx_user c)
              /\ ctx_userId c = user_id (ctx_user c).
Proof.
  unfold validateToken.
  destruct (parseToken token) as [e|[u s]]; [discriminate|].
  destruct (JsMap.get (users db) u) as [user|] eqn:G; [|discriminate].
  simpl. intros H. injection H as <-. exists u. auto.
Qed.

(** The uuid alphabet does not contain the separator. *)
Lemma uuidShape_session (s : string) :
  uuidShape s = true -> s <> "" /\ contains s "_" = false.
Proof.
  unfold uuidShape. intros H. apply andb_true_iff in H as [L C]. split.
  - intros ->. discriminate.
  - clear L. induction s as [|a s IH]; simpl in *; auto.
    apply andb_true_iff in C as [Ca Cs]. rewrite (IH Cs), orb_false_r.
    destruct (Ascii.eqb_spec a "_") as [->|]; [discriminate|reflexivity].
Qed.

End AuthServiceFacts.

(* ================================================================== *)
(** * The token codec *)
(* ================================================================== *)

Example parse_alice :
  AuthService.parseToken "session_usr_alice_demo123"
  = inr ("usr_alice", "demo123").
Proof. reflexivity. Qed.

Example validate_alice :
  AuthService.validateToken seedDatabase "session_usr_alice_demo123"
  = AuthService.mkResult true
      (Some (mkAuthContext "usr_alice"
               (mkUser "usr_alice" "alice@acme.com" "Alice Chen" "admin"
                  (Value
                     "https://api.dicebear.com/7.x/avataaars/svg?seed=alice")
                  "2024-01-15T10:00:00Z" "2024-01-15T10:00:00Z")
               "demo123"))
      None.
Proof. reflexivity. Qed.

Example validate_unknown_user :
  AuthService.validateToken seedDatabase "session_usr_dave_demo123"
  = AuthService.mkResult false None (Some "User not found").
Proof. reflexivity. Qed.

(** C1. Token round trip: for every non-empty user id, also one that
    contains the separator, and every session id as the uuid generator
    gives them (not empty, no separator), parsing the minted token gives
    back exactly that user id and that session id, because the body is
    split at its last separator. [validateToken] then looks the user up
    and returns it with the session id; in a well-formed store the
    [userId] of the context is the id the token was minted for. The
    token "session_usr_alice_demo123" parses to "usr_alice" and
    "demo123". *)
Theorem token_round_trip (userId sessionId : string) :
  userId <> "" ->
  sessionId <> "" ->
  JsString.contains sessionId "_" = false ->
  let token := AuthService.generateSessionToken userId sessionId in
  AuthService.parseToken token = inr (userId, sessionId)
  /\ (forall db user,
        JsMap.get (users db) userId = Some user ->
        AuthService.validateToken db token
        = AuthService.mkResult true
            (Some (mkAuthContext (user_id user) user sessionId)) None
        /\ (wellFormed db = true -> user_id user = userId))
  /\ AuthService.parseToken "session_usr_alice_demo123"
     = inr ("usr_alice", "demo123").
Proof.
  intros Hu Hs Hc token.
  pose proof (AuthServiceFacts.parseToken_generate _ _ Hu Hs Hc) as P.
  fold token in P. repeat split.
  - exact P.
  - unfold AuthService.validateToken. now rewrite P, H.
  - intros W. unfold wellFormed in W.
    pose proof (JsMapFacts.forallb_get _ _ _ _ W H) as U.
    unfold userWellFormed in U. apply andb_true_iff in U as [U _].
    now apply String.eqb_eq in U.
Qed.

Lemma token_round_trip_witness :
  AuthService.parseToken
    (AuthService.generateSessionToken
       "usr_bob" "1b9d6bcd-bbfd-4b2d-9b5d-ab8dfbbd4bed")
  = inr ("usr_bob", "1b9d6bcd-bbfd-4b2d-9b5d-ab8dfbbd4bed").
Proof.
  apply (token_round_trip "usr_bob" "1b9d6bcd-bbfd-4b2d-9b5d-ab8dfbbd4bed").
  - discriminate.
  - discriminate.
  - reflexivity.
Defined.

(** The round trip for session ids of the uuid shape. *)
Corollary token_round_trip_uuid (userId sessionId : string) :
  userId <> "" ->
  uuidShape sessionId = true ->
  AuthService.parseToken
    (AuthService.generateSessionToken userId sessionId)
  = inr (userId, sessionId).
Proof.
  intros Hu Hs. apply AuthServiceFacts.uuidShape_session in Hs as [Hs Hc].
  now apply AuthServiceFacts.parseToken_generate.
Qed.

Example parse_not_a_token :
  AuthService.parseToken "not_a_token" = inl "Invalid token format".
Proof. reflexivity. Qed.

Example parse_empty_body :
  AuthService.parseToken "session_" = inl "Malformed token".
Proof. reflexivity. Qed.

Example parse_empty_user :
  AuthService.parseToken "session__demo123" = inl "Malformed token".
Proof. reflexivity. Qed.

Example parse_empty_session :
  AuthService.parseToken "session_usr_alice_" = inl "Malformed token".
Proof. reflexivity. Qed.

(** C6. Malformed tokens: for every string, parsing fails when the
    string lacks the prefix "session_" (message 'Invalid token format'),
    when the body after the prefix holds no separator, or when the part
    before or after the last separator is empty (message 'Malformed
    token'); [validateToken] returns that failure whatever the store
    holds. "not_a_token" and "session_" both fail. When parsing
    succeeds, the token is exactly prefix, user id, separator, session
    id, with both parts non-empty and no separator in the session id:
    the user id is never a wrong or shortened one. *)
Theorem malformed_token_rejected (token : string) :
  (JsString.startsWith token "session_" = false ->
   AuthService.parseToken token = inl "Invalid token format")
  /\ (JsString.startsWith token "session_" = true ->
      JsString.contains (JsString.slice 8 token) "_" = false ->
      AuthService.parseToken token = inl "Malformed token")
  /\ (forall userId sessionId,
        token = AuthService.generateSessionToken userId sessionId ->
        JsString.contains sessionId "_" = false ->
        userId = "" \/ sessionId = "" ->
        AuthService.parseToken token = inl "Malformed token")
  /\ (forall e,
        AuthService.parseToken token = inl e ->
        (e = "Invalid token format" \/ e = "Malformed token")
        /\ forall db,
             AuthService.validateToken db token
             = AuthService.mkResult false None (Some e))
  /\ (forall userId sessionId,
        AuthService.parseToken token = inr (userId, sessionId) ->
        token = AuthService.generateSessionToken userId sessionId
        /\ userId <> "" /\ sessionId <> ""
        /\ JsString.contains sessionId "_" = false)
  /\ AuthService.parseToken "not_a_token" = inl "Invalid token format"
  /\ AuthService.parseToken "session_" = inl "Malformed token".
Proof.
  repeat apply conj.
  - intros P. unfold AuthService.parseToken.
    change AuthService.TOKEN_PREFIX with "session_". rewrite P.
    now rewrite orb_true_r.
  - intros P C. unfold AuthService.parseToken.
    change AuthService.TOKEN_PREFIX with "session_". rewrite P.
    change (String.length "session_") with 8.
    apply JsStringFacts.lastIndexOf_none in C. rewrite C.
    destruct token; [discriminate P | reflexivity].
  - intros userId sessionId -> C E.
    rewrite (AuthServiceFacts.parseToken_generate_split _ _ C).
    destruct E as [-> | ->]; [reflexivity|].
    now rewrite orb_true_r.
  - intros e P. split.
    + revert P. unfold AuthService.parseToken.
      repeat match goal with
             | |- context [if ?b then _ else _] => destruct b
             end; intros P;
        first [discriminate P | injection P as <-; auto].
    + intros db. now apply AuthServiceFacts.validateToken_parse_error.
  - intros userId sessionId. apply AuthServiceFacts.parseToken_inr.
  - reflexivity.
  - reflexivity.
Qed.

Lemma malformed_token_rejected_witness :
  AuthService.parseToken "Bearer xyz" = inl "Invalid token format"
  /\ AuthService.parseToken "session_nounderscore" = inl "Malformed token"
  /\ AuthService.parseToken "session__demo123" = inl "Malformed token"
  /\ AuthService.validateToken seedDatabase "session_usr_alice_"
     = AuthService.mkResult false None (Some "Malformed token").
Proof.
  repeat apply conj.
  - destruct (malformed_token_rejected "Bearer xyz") as (H & _).
    exact (H eq_refl).
  - destruct (malformed_token_rejected "session_nounderscore")
      as (_ & H & _).
    exact (H eq_refl eq_refl).
  - destruct (malformed_token_rejected "session__demo123")
      as (_ & _ & H & _).
    exact (H "" "demo123" eq_refl eq_refl (or_introl eq_refl)).
  - destruct (malformed_token_rejected "session_usr_alice_")
      as (_ & _ & _ & H & _).
    exact (proj2 (H "Malformed token" eq_refl) seedDatabase).
Defined.

(* ================================================================== *)
(** * The permission table *)
(* ================================================================== *)

Example admin_manages_users :
  AuthService.hasPermission (withRole "admin") "manage:users"
  = AuthService.Returns true.
Proof. reflexivity. Qed.

Example member_does_not_manage_users :
  AuthService.hasPermission (withRole "member") "manage:users"
  = AuthService.Returns false.
Proof. reflexivity. Qed.

Example guest_has_nothing :
  AuthService.getPermissionsForRole "guest" = AuthService.PermissionList [].
Proof. reflexivity. Qed.

Example toString_is_inherited :
  AuthService.getPermissionsForRole "toString"
  = AuthService.Inherited "toString".
Proof. reflexivity. Qed.

(** The table has no own property for a role outside the enumeration. *)
Lemma ownProperty_unknown (role : string) :
  AuthService.includes enumeratedRoles role = false ->
  AuthService.ownProperty AuthService.PERMISSIONS role = None.
Proof.
  unfold AuthService.includes, enumeratedRoles. cbn [existsb]. intros H.
  repeat (apply orb_false_iff in H as [?E H]).
  unfold AuthService.PERMISSIONS. cbn [AuthService.ownProperty].
  rewrite (String.eqb_sym "admin"), (String.eqb_sym "member"),
    (String.eqb_sym "viewer").
  now rewrite E, E0, E1.
Qed.

(** Where the default [|| []] applies: for every role string that is
    neither one of the enumerated roles nor the name of a property that
    the table inherits from [Object.prototype], [getPermissionsForRole]
    returns the empty list and [hasPermission] returns false for every
    permission; neither throws. *)
Lemma unknown_role_fail_closed (role : string) :
  AuthService.includes enumeratedRoles role = false ->
  AuthService.includes AuthService.ObjectPrototype role = false ->
  AuthService.getPermissionsForRole role = AuthService.PermissionList []
  /\ forall user permission,
       user_role user = role ->
       AuthService.hasPermission user permission
       = AuthService.Returns false.
Proof.
  intros E O.
  assert (L : AuthService.lookup role = AuthService.Undefined).
  { unfold AuthService.lookup. now rewrite (ownProperty_unknown _ E), O. }
  split.
  - unfold AuthService.getPermissionsForRole. now rewrite L.
  - intros user permission <-. unfold AuthService.hasPermission.
    now rewrite L.
Qed.

Lemma unknown_role_fail_closed_witness :
  AuthService.getPermissionsForRole "guest" = AuthService.PermissionList []
  /\ AuthService.hasPermission (withRole "guest") "read"
     = AuthService.Returns false.
Proof.
  destruct (unknown_role_fail_closed "guest" eq_refl eq_refl) as [G H].
  split; [exact G | exact (H (withRole "guest") "read" eq_refl)].
Defined.

(** The default does not apply to every role outside the enumeration:
    "constructor" is not an enumerated role, yet the lookup finds the
    inherited constructor function. *)
Lemma unknown_role_counterexample :
  ~ (forall role,
       ~ In role enumeratedRoles ->
       AuthService.getPermissionsForRole role = AuthService.PermissionList []
       /\ forall user permission,
            user_role user = role ->
            AuthService.hasPermission user permission
            = AuthService.Returns false).
Proof.
  intros H. destruct (H "constructor") as [G _].
  - simpl. intros [E|[E|[E|[]]]]; discriminate E.
  - discriminate G.
Qed.

Example constructor_role_throws (permission : string) :
  AuthService.hasPermission (withRole "constructor") permission
  = AuthService.Throws
      "TypeError: userPermissions.includes is not a function".
Proof. reflexivity. Qed.


(** C7. Every permission of the viewer role is a permission of the
    member role, and the member role has a permission that the viewer
    role lacks: in the table the permissions of a viewer are a strict
    subset of those of a member. *)
Theorem viewer_within_member :
  AuthService.getPermissionsForRole "viewer"
  = AuthService.PermissionList ["read"]
  /\ AuthService.getPermissionsForRole "member"
     = AuthService.PermissionList
         ["read"; "write"; "manage:projects"; "manage:api-keys"]
  /\ (forall viewer member permission,
        user_role viewer = "viewer" ->
        user_role member = "member" ->
        AuthService.hasPermission viewer permission
        = AuthService.Returns true ->
        AuthService.hasPermission member permission
        = AuthService.Returns true)
  /\ (exists permission,
        forall viewer member,
          user_role viewer = "viewer" ->
          user_role member = "member" ->
          AuthService.hasPermission member permission
          = AuthService.Returns true
          /\ AuthService.hasPermission viewer permission
             = AuthService.Returns false).
Proof.
  repeat apply conj; try reflexivity.
  - intros viewer member permission V M.
    unfold AuthService.hasPermission. rewrite V, M. simpl.
    destruct (String.eqb_spec permission "read") as [->|]; simpl.
    + reflexivity.
    + discriminate.
  - exists "write". intros viewer member V M.
    unfold AuthService.hasPermission. rewrite V, M. split; reflexivity.
Qed.

Lemma viewer_within_member_witness :
  AuthService.hasPermission (withRole "member") "read"
  = AuthService.Returns true.
Proof.
  destruct viewer_within_member as (_ & _ & H & _).
  exact (H (withRole "viewer") (withRole "member") "read"
           eq_refl eq_refl eq_refl).
Defined.

(* ================================================================== *)
(** * Properties of the validation schemas *)
(* ================================================================== *)

Module SchemaFacts.

Lemma enum_role (v : option Json) (r : UserRole) :
  Zod.enum roleEnum v = Some r ->
  AuthService.includes enumeratedRoles r = true.
Proof.
  unfold Zod.enum. destruct v as [[| | |s| |]|]; try discriminate.
  unfold roleEnum. cbn [Zod.assoc].
  repeat match goal with
         | |- context [if ?b then _ else _] => destruct b
         end; intros H; first [discriminate H | injection H as <-];
    reflexivity.
Qed.

Lemma optional_enum_role (v : option Json) (o : option UserRole)
      (r : UserRole) :
  Zod.optional (Zod.enum roleEnum) v = Some o ->
  o = Some r ->
  AuthService.includes enumeratedRoles r = true.
Proof.
  unfold Zod.optional. destruct v as [j|].
  - destruct (Zod.enum roleEnum (Some j)) as [r'|] eqn:E; simpl;
      [|discriminate].
    intros H1 H2. injection H1 as <-. injection H2 as <-.
    now apply enum_role in E.
  - intros H1 H2. injection H1 as <-. discriminate.
Qed.

(** A role that passed [updateUserSchema] is an enumerated one. *)
Lemma updateUserSchema_role (isUrl : string -> bool) (body : option Json)
      (input : UpdateUserInput) (r : UserRole) :
  UsersApi.updateUserSchema isUrl body = Some input ->
  uu_role input = Some r ->
  AuthService.includes enumeratedRoles r = true.
Proof.
  unfold UsersApi.updateUserSchema, Zod.object.
  destruct body as [[| | | | |o]|]; try discriminate.
  destruct (Zod.optional (Zod.string_ _) (Zod.member o "name"));
    [|discriminate].
  destruct (Zod.optional (Zod.enum roleEnum) (Zod.member o "role"))
    as [role|] eqn:R; [|discriminate].
  destruct (Zod.nullable _ (Zod.member o "avatarUrl")); [|discriminate].
  intros H. injection H as <-. simpl. intros E.
  exact (optional_enum_role _ _ _ R E).
Qed.

(** [createUserSchema] always gives a role, an enumerated one. *)
Lemma createUserSchema_role (isEmail : string -> bool)
      (body : option Json) (input : CreateUserInput) :
  UsersApi.createUserSchema isEmail body = Some input ->
  exists r, cu_role input = Some r
            /\ AuthService.includes enumeratedRoles r = true.
Proof.
  unfold UsersApi.createUserSchema, Zod.object.
  destruct body as [[| | | | |o]|]; try discriminate.
  destruct (Zod.string_ _ (Zod.member o "email")); [|discriminate].
  destruct (Zod.string_ _ (Zod.member o "name")); [|discriminate].
  destruct (Zod.default _ _ (Zod.member o "role")) as [role|] eqn:R;
    [|discriminate].
  intros H. injection H as <-. simpl.
  unfold Zod.default in R.
  destruct (Zod.member o "role") as [j|].
  - destruct role as [r|].
    + exists r. split; [reflexivity|]. exact (optional_enum_role _ _ _ R eq_refl).
    + unfold Zod.optional in R.
      destruct (Zod.enum roleEnum (Some j)); discriminate.
  - injection R as <-. exists "member". split; reflexivity.
Qed.

Lemma enumerated_truthy (r : UserRole) :
  AuthService.includes enumeratedRoles r = true -> truthy (Some r) = true.
Proof. destruct r; [discriminate | reflexivity]. Qed.

End SchemaFacts.

(* ================================================================== *)
(** * Properties of the middleware *)
(* ================================================================== *)

Module MiddlewareFacts.

(** After [requireAuth], the context holds a stored user. *)
Lemma requireAuth_next (db : Database) (authHeader : option string)
      (auth : AuthContext) :
  requireAuth db authHeader = Next auth ->
  exists key, JsMap.get (users db) key = Some (ctx_user auth)
              /\ ctx_userId auth = user_id (ctx_user auth).
Proof.
  unfold requireAuth. destruct authHeader as [h|]; [|discriminate].
  destruct (JsString.falsy h); [discriminate|].
  destruct (negb (JsString.startsWith h "Bearer ")); [discriminate|].
  destruct (AuthService.valid _); [|discriminate].
  destruct (AuthService.context _) as [c|] eqn:C; [|discriminate].
  intros H. injection H as <-.
  exact (AuthServiceFacts.validateToken_valid _ _ _ C).
Qed.

(** [requireAuth] never throws. *)
Lemma requireAuth_no_raise (db : Database) (authHeader : option string)
      (err : string) :
  requireAuth db authHeader <> Raise err.
Proof.
  unfold requireAuth. destruct authHeader as [h|]; [|discriminate].
  destruct (JsString.falsy h); [discriminate|].
  destruct (negb (JsString.startsWith h "Bearer ")); [discriminate|].
  destruct (AuthService.valid _); [|discriminate].
  destruct (AuthService.context _); discriminate.
Qed.

(** What [requireAuth] responds with is a 401. *)
Lemma requireAuth_respond (db : Database) (authHeader : option string)
      (r : Response) :
  requireAuth db authHeader = Respond r -> status r = 401.
Proof.
  unfold requireAuth. destruct authHeader as [h|].
  2:{ intros H. injection H as <-. reflexivity. }
  destruct (JsString.falsy h); [intros H; injection H as <-; reflexivity|].
  destruct (negb (JsString.startsWith h "Bearer "));
    [intros H; injection H as <-; reflexivity|].
  destruct (AuthService.valid _);
    [|intros H; injection H as <-; reflexivity].
  destruct (AuthService.context _); [discriminate|].
  intros H; injection H as <-; reflexivity.
Qed.

(** In a well-formed store the context names the user by the key it is
    stored under, and its role is an enumerated one. *)
Lemma requireAuth_wellFormed (db : Database) (authHeader : option string)
      (auth : AuthContext) :
  wellFormed db = true ->
  requireAuth db authHeader = Next auth ->
  JsMap.get (users db) (ctx_userId auth) = Some (ctx_user auth)
  /\ AuthService.includes enumeratedRoles (user_role (ctx_user auth)) = true.
Proof.
  intros W H. destruct (requireAuth_next _ _ _ H) as (key & G & I).
  pose proof (JsMapFacts.forallb_get _ _ _ _ W G) as U.
  unfold userWellFormed in U. simpl in U.
  apply andb_true_iff in U as [U1 U2].
  apply String.eqb_eq in U1. rewrite I, U1. auto.
Qed.

(** The permissions of the enumerated roles on [manage:users]. *)
Lemma manage_users_enumerated (user : User) :
  AuthService.includes enumeratedRoles (user_role user) = true ->
  AuthService.hasPermission user "manage:users"
  = AuthService.Returns (String.eqb (user_role user) "admin").
Proof.
  intros H. apply AuthServiceFacts.includes_In in H.
  unfold AuthService.hasPermission.
  destruct H as [<-|[<-|[<-|[]]]]; reflexivity.
Qed.

End MiddlewareFacts.

(* ================================================================== *)
(** * Properties of the routes *)
(* ================================================================== *)

Module ServerFacts.

Section Routes.
Variables isEmail isUrl : string -> bool.

(** After [requireAuth], a request runs the chain of its route. *)
Lemma handle_next (e : Env) (db : Database) (req : Request)
      (auth : AuthContext) :
  requireAuth db (req_authorization req) = Next auth ->
  handle isEmail isUrl e db req
  = match req_route req with
    | GET_projects => ProjectsApi.listProjects db auth
    | GET_projects_id id => ProjectsApi.getProject db auth id
    | POST_projects => ProjectsApi.createProject e db auth (req_body req)
    | PUT_projects_id id =>
        ProjectsApi.updateProject e db auth id (req_body req)
    | DELETE_projects_id id => ProjectsApi.deleteProject e db auth id
    | GET_users =>
        withPermission "manage:users" db auth (UsersApi.listUsers db)
    | GET_users_me => UsersApi.me db auth
    | GET_users_id id => UsersApi.getUser db id
    | POST_users =>
        withPermission "manage:users" db auth
          (UsersApi.createUser isEmail e db (req_body req))
    | PUT_users_id id =>
        UsersApi.updateUser isUrl e db auth id (req_body req)
    | DELETE_users_id id =>
        withPermission "manage:users" db auth
          (UsersApi.deleteUser db auth id)
    end.
Proof. unfold handle. now intros ->. Qed.

(** A request leaves the store as it was, or answers 200 or 201. *)
Lemma handle_unchanged_or_success (e : Env) (db : Database)
      (req : Request) :
  snd (handle isEmail isUrl e db req) = db
  \/ status (fst (handle isEmail isUrl e db req)) = 200
  \/ status (fst (handle isEmail isUrl e db req)) = 201.
Proof.
  unfold handle.
  destruct (requireAuth db (req_authorization req)) as [r|auth|err];
    [now left | | now left].
  destruct (req_route req);
    unfold withPermission, requirePermission,
      ProjectsApi.listProjects, ProjectsApi.getProject,
      ProjectsApi.createProject, ProjectsApi.updateProject,
      ProjectsApi.deleteProject, UsersApi.listUsers, UsersApi.me,
      UsersApi.getUser, UsersApi.createUser, UsersApi.updateUser,
      UsersApi.deleteUser;
    repeat break_match; simpl; auto.
Qed.

(** The projects routes do not touch the users. *)
Lemma projects_routes_keep_users (e : Env) (db : Database)
      (auth : AuthContext) (id : string) (body : option Json) :
  users (snd (ProjectsApi.listProjects db auth)) = users db
  /\ users (snd (ProjectsApi.getProject db auth id)) = users db
  /\ users (snd (ProjectsApi.createProject e db auth body)) = users db
  /\ users (snd (ProjectsApi.updateProject e db auth id body)) = users db
  /\ users (snd (ProjectsApi.deleteProject e db auth id)) = users db.
Proof.
  unfold ProjectsApi.listProjects, ProjectsApi.getProject,
    ProjectsApi.createProject, ProjectsApi.updateProject,
    ProjectsApi.deleteProject.
  repeat split; repeat break_match; reflexivity.
Qed.

Lemma createUser_wellFormed (e : Env) (db : Database)
      (body : option Json) :
  wellFormed db = true ->
  wellFormed (snd (UsersApi.createUser isEmail e db body)) = true.
Proof.
  intros W. unfold UsersApi.createUser.
  destruct (UsersApi.createUserSchema isEmail body) as [input|] eqn:V;
    [|exact W].
  destruct (existsb _ _); [exact W|].
  destruct (SchemaFacts.createUserSchema_role _ _ _ V) as (r & R & I).
  unfold wellFormed. cbn [snd users user_id].
  apply JsMapFacts.forallb_set; [exact W|].
  unfold userWellFormed. cbn [fst snd user_id user_role].
  rewrite String.eqb_refl, R. unfold orElse.
  pose proof (SchemaFacts.enumerated_truthy _ I) as T. unfold truthy in T.
  apply negb_true_iff in T. now rewrite T, I.
Qed.

Lemma updateUser_wellFormed (e : Env) (db : Database)
      (auth : AuthContext) (id : string) (body : option Json) :
  wellFormed db = true ->
  wellFormed (snd (UsersApi.updateUser isUrl e db auth id body)) = true.
Proof.
  intros W. unfold UsersApi.updateUser.
  destruct (JsMap.get (users db) id) as [user|] eqn:G; [|exact W].
  destruct (_ && _); [exact W|].
  destruct (UsersApi.updateUserSchema isUrl body) as [input|] eqn:V;
    [|exact W].
  destruct (_ && _); [exact W|].
  unfold wellFormed. cbn [snd users].
  apply JsMapFacts.forallb_set; [exact W|].
  pose proof (JsMapFacts.forallb_get _ _ _ _ W G) as U.
  unfold userWellFormed in *. cbn [fst snd] in *.
  apply andb_true_iff in U as [U1 U2].
  unfold UsersApi.spread. cbn [user_id user_role]. rewrite U1.
  destruct (uu_role input) as [r|] eqn:R; [|exact U2].
  exact (SchemaFacts.updateUserSchema_role _ _ _ _ V R).
Qed.

Lemma deleteUser_wellFormed (db : Database) (auth : AuthContext)
      (id : string) :
  wellFormed db = true ->
  wellFormed (snd (UsersApi.deleteUser db auth id)) = true.
Proof.
  intros W. unfold UsersApi.deleteUser.
  destruct (JsMap.get (users db) id); [|exact W].
  destruct (String.eqb _ _); [exact W|].
  unfold wellFormed. cbn [snd users].
  now apply JsMapFacts.forallb_delete.
Qed.

Lemma withPermission_wellFormed (permission : string) (db : Database)
      (auth : AuthContext) (handler : Response * Database) :
  wellFormed db = true ->
  wellFormed (snd handler) = true ->
  wellFormed (snd (withPermission permission db auth handler)) = true.
Proof.
  intros W H. unfold withPermission.
  destruct (requirePermission permission (Some auth)); auto.
Qed.

(** Every request keeps the store well formed. *)
Lemma handle_wellFormed (e : Env) (db : Database) (req : Request) :
  wellFormed db = true ->
  wellFormed (snd (handle isEmail isUrl e db req)) = true.
Proof.
  intros W. unfold handle.
  destruct (requireAuth db (req_authorization req)) as [r|auth|err];
    [exact W | | exact W].
  destruct (req_route req) as [|id| |id|id| | |id| |id|id].
  - exact W.
  - unfold wellFormed.
    now rewrite (proj1 (proj2 (projects_routes_keep_users e db auth id None))).
  - unfold wellFormed.
    destruct (projects_routes_keep_users e db auth "" (req_body req))
      as (_ & _ & -> & _). exact W.
  - unfold wellFormed.
    destruct (projects_routes_keep_users e db auth id (req_body req))
      as (_ & _ & _ & -> & _). exact W.
  - unfold wellFormed.
    destruct (projects_routes_keep_users e db auth id None)
      as (_ & _ & _ & _ & ->). exact W.
  - apply withPermission_wellFormed; auto.
  - exact W.
  - unfold UsersApi.getUser. destruct (JsMap.get _ _); exact W.
  - apply withPermission_wellFormed; auto using createUser_wellFormed.
  - now apply updateUser_wellFormed.
  - apply withPermission_wellFormed; auto using deleteUser_wellFormed.
Qed.

(** So does every sequence of requests. *)
Lemma run_wellFormed (rs : list (Env * Request)) (db : Database) :
  wellFormed db = true ->
  wellFormed (run isEmail isUrl db rs) = true.
Proof.
  revert db. induction rs as [|[e r] rs IH]; intros db W; simpl; auto.
  apply IH. now apply handle_wellFormed.
Qed.

End Routes.

Lemma seedDatabase_wellFormed : wellFormed seedDatabase = true.
Proof. reflexivity. Qed.

End ServerFacts.

(* ================================================================== *)
(** * Access control on the routes *)
(* ================================================================== *)

Example bob_renames_his_project :
  fst (serve seedDatabase
         (mkRequest (PUT_projects_id "prj_mobile") asBob
            (Some (JObject [("name", JString "Mobile App v3")]))))
  = ok (DataProject
          (mkProject "prj_mobile" "Mobile App v3"
             "React Native app for iOS and Android" "usr_bob" active
             "2024-02-05T08:00:00Z" "2024-04-01T00:00:00Z")).
Proof. reflexivity. Qed.

Example carol_cannot_rename_it :
  serve seedDatabase
    (mkRequest (PUT_projects_id "prj_mobile") asCarol
       (Some (JObject [("name", JString "Mine")])))
  = (forbidden "Only project owners can update projects", seedDatabase).
Proof. reflexivity. Qed.

Example alice_deletes_bobs_project :
  fst (serve seedDatabase
         (mkRequest (DELETE_projects_id "prj_mobile") asAlice None))
  = ok (DataDeleted true).
Proof. reflexivity. Qed.

(** C2. Ownership of projects: for every authenticated request to
    update or delete a stored project that is not deleted, the request
    passes the ownership check exactly when the requester's id is the
    project's [ownerId] or the requester's role is admin. Otherwise the
    response is 403 FORBIDDEN and the store is as before. When the check
    passes, a delete marks the project deleted, and an update applies
    the validated input or answers 400 when the body is not valid. *)
Theorem project_owner_or_admin
        (isEmail isUrl : string -> bool) (e : Env) (db : Database)
        (req : Request) (auth : AuthContext) (id : string)
        (project : Project) :
  requireAuth db (req_authorization req) = Next auth ->
  req_route req = PUT_projects_id id
  \/ req_route req = DELETE_projects_id id ->
  JsMap.get (projects db) id = Some project ->
  project_status project <> deleted ->
  let result := handle isEmail isUrl e db req in
  let allowed :=
    project_ownerId project = ctx_userId auth
    \/ user_role (ctx_user auth) = "admin" in
  (allowed <-> status (fst result) <> 403)
  /\ (~ allowed ->
      status (fst result) = 403
      /\ (exists message, json (fst result) = Failure "FORBIDDEN" message)
      /\ snd result = db)
  /\ (allowed ->
      req_route req = DELETE_projects_id id ->
      fst result = ok (DataDeleted true)
      /\ exists updated,
           JsMap.get (projects (snd result)) id = Some updated
           /\ project_status updated = deleted)
  /\ (allowed ->
      req_route req = PUT_projects_id id ->
      match ProjectsApi.updateProjectSchema (req_body req) with
      | None => result = (validationError, db)
      | Some input =>
          fst result
          = ok (DataProject (ProjectsApi.spread project input (now e)))
          /\ JsMap.get (projects (snd result)) id
             = Some (ProjectsApi.spread project input (now e))
      end).
Proof.
  intros A R G S result allowed. subst result.
  rewrite (ServerFacts.handle_next _ _ _ _ _ _ A).
  assert (F : ProjectsApi.find db id = Some project).
  { unfold ProjectsApi.find. rewrite G.
    destruct (project_status project); simpl; congruence. }
  assert (D : allowed
              <-> negb (ProjectsApi.isOwner auth project)
                  && negb (ProjectsApi.isAdmin auth) = false).
  { unfold allowed, ProjectsApi.isOwner, ProjectsApi.isAdmin.
    destruct (String.eqb_spec (project_ownerId project) (ctx_userId auth));
      destruct (String.eqb_spec (user_role (ctx_user auth)) "admin");
      simpl; intuition congruence. }
  destruct (negb (ProjectsApi.isOwner auth project)
            && negb (ProjectsApi.isAdmin auth)) eqn:C.
  - assert (N : ~ allowed) by (rewrite D; discriminate).
    destruct R as [R | R]; rewrite R;
      unfold ProjectsApi.updateProject, ProjectsApi.deleteProject;
      rewrite F, C; cbn [fst snd forbidden status json];
      (split; [|split; [|split]];
       [ split; [intros Y; contradiction | intros H; now contradiction H]
       | intros _; eauto
       | intros Y; contradiction
       | intros Y; contradiction ]).
  - assert (Y : allowed) by (now rewrite D).
    destruct R as [R | R]; rewrite R;
      unfold ProjectsApi.updateProject, ProjectsApi.deleteProject;
      rewrite F, C.
    + destruct (ProjectsApi.updateProjectSchema (req_body req)) eqn:V;
        cbn [fst snd ok validationError status json projects];
        (split; [|split; [|split]]);
        try (split; [intros _; discriminate | intros _; exact Y]);
        try (intros N; contradiction);
        try (intros _ H; discriminate H).
      * intros _ _. split; [reflexivity|]. apply JsMapFacts.get_set_same.
      * intros _ _. reflexivity.
    + cbn [fst snd ok status json projects].
      split; [|split; [|split]].
      * split; [intros _; discriminate | intros _; exact Y].
      * intros N; contradiction.
      * intros _ _. split; [reflexivity|]. eexists.
        split; [apply JsMapFacts.get_set_same | reflexivity].
      * intros _ H; discriminate H.
Qed.

Lemma project_owner_or_admin_witness :
  status (fst (serve seedDatabase
                 (mkRequest (DELETE_projects_id "prj_mobile") asCarol None)))
  = 403
  /\ snd (serve seedDatabase
            (mkRequest (DELETE_projects_id "prj_mobile") asCarol None))
     = seedDatabase.
Proof.
  destruct (project_owner_or_admin anyFormat anyFormat testEnv seedDatabase
              (mkRequest (DELETE_projects_id "prj_mobile") asCarol None)
              (mkAuthContext "usr_carol"
                 (mkUser "usr_carol" "carol@acme.com" "Carol Kim" "viewer"
                    (Value
                       "https://api.dicebear.com/7.x/avataaars/svg?seed=carol")
                    "2024-02-15T09:00:00Z" "2024-02-15T09:00:00Z")
                 "s3")
              "prj_mobile"
              (mkProject "prj_mobile" "Mobile App v2"
                 "React Native app for iOS and Android" "usr_bob" active
                 "2024-02-05T08:00:00Z" "2024-03-15T12:00:00Z")
              eq_refl (or_intror eq_refl) eq_refl)
    as (_ & H & _).
  - discriminate.
  - destruct H as (H1 & _ & H2).
    + intros [E | E]; discriminate E.
    + split; [exact H1 | exact H2].
Defined.

Example alice_cannot_delete_herself :
  serve seedDatabase (mkRequest (DELETE_users_id "usr_alice") asAlice None)
  = (forbidden "Cannot delete your own account", seedDatabase).
Proof. reflexivity. Qed.

Example bob_cannot_delete_himself :
  serve seedDatabase (mkRequest (DELETE_users_id "usr_bob") asBob None)
  = (forbidden "Permission denied: manage:users", seedDatabase).
Proof. reflexivity. Qed.

Example alice_deletes_bob :
  serve seedDatabase (mkRequest (DELETE_users_id "usr_bob") asAlice None)
  = (ok (DataDeleted true),
     mkDatabase (JsMap.delete (users seedDatabase) "usr_bob")
                (projects seedDatabase)).
Proof. reflexivity. Qed.

(** C3. Self-delete protection: in a well-formed store, every
    authenticated request DELETE /api/users/:id whose target is the
    requester's own id is answered 403 FORBIDDEN, and the store, with
    the target user in it, is as before; this holds for every role. An
    admin is stopped by the self-delete check of the handler, the other
    roles by [requirePermission('manage:users')] before it. *)
Theorem self_delete_denied
        (isEmail isUrl : string -> bool) (e : Env) (db : Database)
        (req : Request) (auth : AuthContext) :
  wellFormed db = true ->
  requireAuth db (req_authorization req) = Next auth ->
  req_route req = DELETE_users_id (ctx_userId auth) ->
  let result := handle isEmail isUrl e db req in
  status (fst result) = 403
  /\ (exists message, json (fst result) = Failure "FORBIDDEN" message)
  /\ snd result = db
  /\ JsMap.get (users (snd result)) (ctx_userId auth) = Some (ctx_user auth)
  /\ (user_role (ctx_user auth) = "admin" ->
      fst result = forbidden "Cannot delete your own account").
Proof.
  intros W A R result. subst result.
  rewrite (ServerFacts.handle_next _ _ _ _ _ _ A), R.
  destruct (MiddlewareFacts.requireAuth_wellFormed _ _ _ W A) as [G I].
  unfold withPermission, requirePermission.
  rewrite (MiddlewareFacts.manage_users_enumerated _ I).
  destruct (String.eqb_spec (user_role (ctx_user auth)) "admin") as [Ad|Na].
  - unfold UsersApi.deleteUser. rewrite G, String.eqb_refl.
    cbn [fst snd forbidden status json]. repeat split; eauto.
  - cbn [fst snd forbidden status json]. repeat split; eauto.
    intros Ad. contradiction.
Qed.

Lemma self_delete_denied_witness :
  status (fst (serve seedDatabase
                 (mkRequest (DELETE_users_id "usr_alice") asAlice None)))
  = 403
  /\ snd (serve seedDatabase
            (mkRequest (DELETE_users_id "usr_alice") asAlice None))
     = seedDatabase.
Proof.
  destruct (self_delete_denied anyFormat anyFormat testEnv seedDatabase
              (mkRequest (DELETE_users_id "usr_alice") asAlice None)
              (mkAuthContext "usr_alice"
                 (mkUser "usr_alice" "alice@acme.com" "Alice Chen" "admin"
                    (Value
                       "https://api.dicebear.com/7.x/avataaars/svg?seed=alice")
                    "2024-01-15T10:00:00Z" "2024-01-15T10:00:00Z")
                 "s1")
              eq_refl eq_refl eq_refl)
    as (H1 & _ & H2 & _).
  split; [exact H1 | exact H2].
Defined.

Example bob_cannot_promote_himself :
  serve seedDatabase
    (mkRequest (PUT_users_id "usr_bob") asBob
       (Some (JObject [("role", JString "admin")])))
  = (forbidden "Only admins can change user roles", seedDatabase).
Proof. reflexivity. Qed.

Example bob_renames_himself :
  fst (serve seedDatabase
         (mkRequest (PUT_users_id "usr_bob") asBob
            (Some (JObject [("name", JString "Robert")]))))
  = ok (DataUser
          (mkUser "usr_bob" "bob@acme.com" "Robert" "member"
             (Value "https://api.dicebear.com/7.x/avataaars/svg?seed=bob")
             "2024-02-01T14:30:00Z" "2024-04-01T00:00:00Z")).
Proof. reflexivity. Qed.

Example alice_promotes_bob :
  fst (serve seedDatabase
         (mkRequest (PUT_users_id "usr_bob") asAlice
            (Some (JObject [("role", JString "admin")]))))
  = ok (DataUser
          (mkUser "usr_bob" "bob@acme.com" "Bob Martinez" "admin"
             (Value "https://api.dicebear.com/7.x/avataaars/svg?seed=bob")
             "2024-02-01T14:30:00Z" "2024-04-01T00:00:00Z")).
Proof. reflexivity. Qed.

(** C4. Role escalation: for every authenticated request
    PUT /api/users/:id on a stored user, by the target or by an admin,
    whose body is valid and has a [role] field: a requester who is not
    an admin gets 403 FORBIDDEN and the store is as before, also when
    the target is the requester; for an admin the update is stored, and
    the stored user has the new role. *)
Theorem role_change_requires_admin
        (isEmail isUrl : string -> bool) (e : Env) (db : Database)
        (req : Request) (auth : AuthContext) (id : string) (user : User)
        (input : UpdateUserInput) (role : UserRole) :
  requireAuth db (req_authorization req) = Next auth ->
  req_route req = PUT_users_id id ->
  JsMap.get (users db) id = Some user ->
  ctx_userId auth = id \/ user_role (ctx_user auth) = "admin" ->
  UsersApi.updateUserSchema isUrl (req_body req) = Some input ->
  uu_role input = Some role ->
  let result := handle isEmail isUrl e db req in
  (user_role (ctx_user auth) <> "admin" ->
   fst result = forbidden "Only admins can change user roles"
   /\ snd result = db)
  /\ (user_role (ctx_user auth) = "admin" ->
      fst result = ok (DataUser (UsersApi.spread user input (now e)))
      /\ JsMap.get (users (snd result)) id
         = Some (UsersApi.spread user input (now e))
      /\ user_role (UsersApi.spread user input (now e)) = role).
Proof.
  intros A R G S V Ro result. subst result.
  rewrite (ServerFacts.handle_next _ _ _ _ _ _ A), R.
  unfold UsersApi.updateUser. rewrite G, V, Ro.
  rewrite (SchemaFacts.enumerated_truthy _
             (SchemaFacts.updateUserSchema_role _ _ _ _ V Ro)).
  destruct (String.eqb_spec (user_role (ctx_user auth)) "admin") as [Ad|Na].
  - rewrite andb_false_r. cbn [negb andb fst snd users]. split.
    + intros N. contradiction.
    + intros _. split; [reflexivity|].
      split; [apply JsMapFacts.get_set_same|].
      unfold UsersApi.spread. cbn [user_role]. now rewrite Ro.
  - destruct S as [S | S]; [|contradiction].
    apply String.eqb_eq in S. rewrite S.
    cbn [negb andb fst snd]. split.
    + intros _. split; reflexivity.
    + intros Ad. contradiction.
Qed.

Lemma role_change_requires_admin_witness :
  serve seedDatabase
    (mkRequest (PUT_users_id "usr_bob") asBob
       (Some (JObject [("role", JString "admin")])))
  = (forbidden "Only admins can change user roles", seedDatabase).
Proof.
  destruct (role_change_requires_admin anyFormat anyFormat testEnv
              seedDatabase
              (mkRequest (PUT_users_id "usr_bob") asBob
                 (Some (JObject [("role", JString "admin")])))
              (mkAuthContext "usr_bob"
                 (mkUser "usr_bob" "bob@acme.com" "Bob Martinez" "member"
                    (Value
                       "https://api.dicebear.com/7.x/avataaars/svg?seed=bob")
                    "2024-02-01T14:30:00Z" "2024-02-01T14:30:00Z")
                 "s2")
              "usr_bob"
              (mkUser "usr_bob" "bob@acme.com" "Bob Martinez" "member"
                 (Value
                    "https://api.dicebear.com/7.x/avataaars/svg?seed=bob")
                 "2024-02-01T14:30:00Z" "2024-02-01T14:30:00Z")
              (mkUpdateUserInput None (Some "admin") Absent)
              "admin"
              eq_refl eq_refl eq_refl (or_introl eq_refl) eq_refl eq_refl)
    as (H & _).
  destruct H as [H1 H2]; [discriminate|].
  apply injective_projections; [exact H1 | exact H2].
Defined.

Example no_header_is_401 :
  serve seedDatabase (mkRequest POST_projects None None)
  = (unauthorized "Authorization header required", seedDatabase).
Proof. reflexivity. Qed.

Example unknown_user_is_401 :
  serve seedDatabase
    (mkRequest POST_projects (Some "Bearer session_usr_dave_s9") None)
  = (unauthorized "User not found", seedDatabase).
Proof. reflexivity. Qed.

Example duplicate_email_is_409 :
  serve seedDatabase
    (mkRequest POST_users asAlice
       (Some (JObject [("email", JString "bob@acme.com");
                       ("name", JString "Bob Two")])))
  = (conflict "A user with this email already exists", seedDatabase).
Proof. reflexivity. Qed.

Example empty_name_is_400 :
  serve seedDatabase
    (mkRequest POST_projects asBob (Some (JObject [("name", JString "")])))
  = (validationError, seedDatabase).
Proof. reflexivity. Qed.

(** C8. No change on denial or error: for every request to a route of
    the users or projects router that is answered 401, 403, 404, 400 or
    409, the store after the request is the store before it. *)
Theorem error_leaves_store_unchanged
        (isEmail isUrl : string -> bool) (e : Env) (db : Database)
        (req : Request) :
  isErrorStatus (status (fst (handle isEmail isUrl e db req))) = true ->
  snd (handle isEmail isUrl e db req) = db.
Proof.
  intros E.
  destruct (ServerFacts.handle_unchanged_or_success isEmail isUrl e db req)
    as [U | [S | S]]; [exact U | |]; rewrite S in E; discriminate E.
Qed.

Lemma error_leaves_store_unchanged_witness :
  snd (serve seedDatabase
         (mkRequest POST_users asAlice
            (Some (JObject [("email", JString "bob@acme.com");
                            ("name", JString "Bob Two")]))))
  = seedDatabase.
Proof.
  apply (error_leaves_store_unchanged anyFormat anyFormat testEnv
           seedDatabase
           (mkRequest POST_users asAlice
              (Some (JObject [("email", JString "bob@acme.com");
                              ("name", JString "Bob Two")])))).
  reflexivity.
Defined.

Example deleted_project_is_kept :
  JsMap.get (projects afterDelete) "prj_mobile"
  = Some (mkProject "prj_mobile" "Mobile App v2"
            "React Native app for iOS and Android" "usr_bob" deleted
            "2024-02-05T08:00:00Z" "2024-04-01T00:00:00Z").
Proof. reflexivity. Qed.

Example deleted_project_is_not_found :
  fst (serve afterDelete (mkRequest (GET_projects_id "prj_mobile") asBob None))
  = notFound "Project not found"
  /\ fst (serve afterDelete
            (mkRequest (GET_projects_id "prj_mobile") asAlice None))
     = notFound "Project not found".
Proof. split; reflexivity. Qed.

Example deleted_project_is_not_listed :
  fst (serve afterDelete (mkRequest GET_projects asBob None))
  = ok (DataProjects [])
  /\ exists l,
       fst (serve afterDelete (mkRequest GET_projects asAlice None))
       = ok (DataProjects l)
       /\ List.map project_id l = ["prj_website"; "prj_api"; "prj_legacy"].
Proof. split; [reflexivity | eexists; split; reflexivity]. Qed.

(** C9. Soft delete: a successful DELETE /api/projects/:id stores the
    project under the same id with status [deleted] and its other
    fields as they were (but for [updatedAt]); and no read route returns
    a project with status [deleted]: for every requester, admin or not,
    GET /api/projects lists stored projects that are not deleted only,
    and GET /api/projects/:id answers 404 NOT_FOUND for a deleted
    project. *)
Theorem soft_delete_invisible
        (isEmail isUrl : string -> bool) (e : Env) (db : Database)
        (req : Request) (auth : AuthContext) :
  requireAuth db (req_authorization req) = Next auth ->
  let result := handle isEmail isUrl e db req in
  (forall id project,
     req_route req = DELETE_projects_id id ->
     JsMap.get (projects db) id = Some project ->
     project_status project <> deleted ->
     project_ownerId project = ctx_userId auth
     \/ user_role (ctx_user auth) = "admin" ->
     fst result = ok (DataDeleted true)
     /\ users (snd result) = users db
     /\ JsMap.get (projects (snd result)) id
        = Some (mkProject (project_id project) (project_name project)
                  (project_description project) (project_ownerId project)
                  deleted (project_createdAt project) (now e)))
  /\ (req_route req = GET_projects ->
      exists l,
        result = (ok (DataProjects l), db)
        /\ forall p, In p l ->
             project_status p <> deleted
             /\ In p (JsMap.values (projects db)))
  /\ (forall id project,
        req_route req = GET_projects_id id ->
        JsMap.get (projects db) id = Some project ->
        project_status project = deleted ->
        result = (notFound "Project not found", db))
  /\ (forall project,
        json (fst result) = Success (DataProject project) ->
        (exists id, req_route req = GET_projects_id id) ->
        project_status project <> deleted).
Proof.
  intros A result. subst result.
  rewrite (ServerFacts.handle_next _ _ _ _ _ _ A).
  split; [|split; [|split]].
  - intros id project -> G S O.
    unfold ProjectsApi.deleteProject, ProjectsApi.find. rewrite G.
    destruct (ProjectStatus_eqb (project_status project) deleted) eqn:D.
    { destruct (project_status project); try discriminate D.
      now contradiction S. }
    assert (C : negb (ProjectsApi.isOwner auth project)
                && negb (ProjectsApi.isAdmin auth) = false).
    { unfold ProjectsApi.isOwner, ProjectsApi.isAdmin.
      destruct O as [O | O]; apply String.eqb_eq in O; rewrite O;
        [reflexivity | apply andb_false_r]. }
    rewrite C. cbn [fst snd users projects].
    repeat split. apply JsMapFacts.get_set_same.
  - intros ->. unfold ProjectsApi.listProjects. eexists.
    split; [reflexivity|].
    intros p I. apply filter_In in I as [I F]. split; [|exact I].
    intros D. rewrite D in F. discriminate F.
  - intros id project -> G D.
    unfold ProjectsApi.getProject, ProjectsApi.find.
    now rewrite G, D.
  - intros project J (id & R). revert J. rewrite R.
    unfold ProjectsApi.getProject, ProjectsApi.find.
    destruct (JsMap.get (projects db) id) as [p|]; [|discriminate].
    destruct (ProjectStatus_eqb (project_status p) deleted) eqn:D;
      [discriminate|].
    destruct (_ && _); [discriminate|].
    cbn [fst ok json]. intros J. injection J as <-.
    intros S. rewrite S in D. discriminate D.
Qed.

Lemma soft_delete_invisible_witness :
  serve afterDelete (mkRequest (GET_projects_id "prj_mobile") asAlice None)
  = (notFound "Project not found", afterDelete).
Proof.
  destruct (soft_delete_invisible anyFormat anyFormat testEnv afterDelete
              (mkRequest (GET_projects_id "prj_mobile") asAlice None)
              (mkAuthContext "usr_alice"
                 (mkUser "usr_alice" "alice@acme.com" "Alice Chen" "admin"
                    (Value
                       "https://api.dicebear.com/7.x/avataaars/svg?seed=alice")
                    "2024-01-15T10:00:00Z" "2024-01-15T10:00:00Z")
                 "s1")
              eq_refl)
    as (_ & _ & H & _).
  exact (H "prj_mobile"
           (mkProject "prj_mobile" "Mobile App v2"
              "React Native app for iOS and Android" "usr_bob" deleted
              "2024-02-05T08:00:00Z" "2024-04-01T00:00:00Z")
           eq_refl eq_refl eq_refl).
Defined.

Example carol_reads_alice :
  serve seedDatabase (mkRequest (GET_users_id "usr_alice") asCarol None)
  = (ok (DataUser
           (mkUser "usr_alice" "alice@acme.com" "Alice Chen" "admin"
              (Value "https://api.dicebear.com/7.x/avataaars/svg?seed=alice")
              "2024-01-15T10:00:00Z" "2024-01-15T10:00:00Z")),
     seedDatabase).
Proof. reflexivity. Qed.

Example carol_cannot_list_users :
  serve seedDatabase (mkRequest GET_users asCarol None)
  = (forbidden "Permission denied: manage:users", seedDatabase).
Proof. reflexivity. Qed.

Example alice_lists_users :
  serve seedDatabase (mkRequest GET_users asAlice None)
  = (ok (DataUsers (JsMap.values (users seedDatabase))), seedDatabase).
Proof. reflexivity. Qed.

(** C10. Reading one user needs authentication only: for every
    authenticated requester, of any role, and every stored user id,
    GET /api/users/:id answers 200 with the stored record, with no
    permission or ownership check. GET /api/users goes through
    [requirePermission('manage:users')]: it lists the users when the
    requester has that permission and answers 403 FORBIDDEN when not;
    in a well-formed store the requester has it exactly when its role
    is admin. *)
Theorem user_read_needs_authentication_only
        (isEmail isUrl : string -> bool) (e : Env) (db : Database)
        (req : Request) (auth : AuthContext) :
  requireAuth db (req_authorization req) = Next auth ->
  let result := handle isEmail isUrl e db req in
  (forall id user,
     req_route req = GET_users_id id ->
     JsMap.get (users db) id = Some user ->
     result = (ok (DataUser user), db))
  /\ (req_route req = GET_users ->
      (AuthService.hasPermission (ctx_user auth) "manage:users"
       = AuthService.Returns true ->
       result = (ok (DataUsers (JsMap.values (users db))), db))
      /\ (AuthService.hasPermission (ctx_user auth) "manage:users"
          = AuthService.Returns false ->
          result = (forbidden "Permission denied: manage:users", db))
      /\ (wellFormed db = true ->
          AuthService.hasPermission (ctx_user auth) "manage:users"
          = AuthService.Returns
              (String.eqb (user_role (ctx_user auth)) "admin"))).
Proof.
  intros A result. subst result.
  rewrite (ServerFacts.handle_next _ _ _ _ _ _ A). split.
  - intros id user -> G. unfold UsersApi.getUser. now rewrite G.
  - intros ->. unfold withPermission, requirePermission, UsersApi.listUsers.
    repeat split.
    + now intros ->.
    + now intros ->.
    + intros W. apply MiddlewareFacts.manage_users_enumerated.
      exact (proj2 (MiddlewareFacts.requireAuth_wellFormed _ _ _ W A)).
Qed.

Lemma user_read_needs_authentication_only_witness :
  serve seedDatabase (mkRequest (GET_users_id "usr_alice") asCarol None)
  = (ok (DataUser
           (mkUser "usr_alice" "alice@acme.com" "Alice Chen" "admin"
              (Value "https://api.dicebear.com/7.x/avataaars/svg?seed=alice")
              "2024-01-15T10:00:00Z" "2024-01-15T10:00:00Z")),
     seedDatabase).
Proof.
  destruct (user_read_needs_authentication_only anyFormat anyFormat testEnv
              seedDatabase
              (mkRequest (GET_users_id "usr_alice") asCarol None)
              (mkAuthContext "usr_carol"
                 (mkUser "usr_carol" "carol@acme.com" "Carol Kim" "viewer"
                    (Value
                       "https://api.dicebear.com/7.x/avataaars/svg?seed=carol")
                    "2024-02-15T09:00:00Z" "2024-02-15T09:00:00Z")
                 "s3")
              eq_refl)
    as (H & _).
  exact (H "usr_alice" _ eq_refl eq_refl).
Defined.

(* ================================================================== *)
(** * What a request does to the store *)
(* ================================================================== *)

Module EffectFacts.

(** Only an admin has [manage:users], whatever the role string. *)
Lemma manage_users_admin (user : User) :
  AuthService.hasPermission user "manage:users" = AuthService.Returns true ->
  user_role user = "admin".
Proof.
  unfold AuthService.hasPermission, AuthService.lookup,
    AuthService.PERMISSIONS.
  cbn [AuthService.ownProperty].
  destruct (String.eqb_spec "admin" (user_role user)) as [E|_]; [now auto|].
  destruct (String.eqb "member" (user_role user)); [discriminate|].
  destruct (String.eqb "viewer" (user_role user)); [discriminate|].
  destruct (AuthService.includes AuthService.ObjectPrototype
              (user_role user)); discriminate.
Qed.

Lemma manage_users_of_admin (user : User) :
  user_role user = "admin" ->
  AuthService.hasPermission user "manage:users" = AuthService.Returns true.
Proof. unfold AuthService.hasPermission. now intros ->. Qed.

Lemma find_get (db : Database) (id : string) (project : Project) :
  ProjectsApi.find db id = Some project <->
  JsMap.get (projects db) id = Some project
  /\ project_status project <> deleted.
Proof.
  unfold ProjectsApi.find.
  destruct (JsMap.get (projects db) id) as [p|]; [|intuition discriminate].
  destruct (project_status p) eqn:S; simpl; split.
  all: try (intros H; injection H as <-; split; congruence).
  all: try (intros [H N]; injection H as <-; congruence).
  all: try discriminate.
Qed.

Lemma owner_or_admin (auth : AuthContext) (project : Project) :
  negb (ProjectsApi.isOwner auth project)
  && negb (ProjectsApi.isAdmin auth) = false <->
  project_ownerId project = ctx_userId auth
  \/ user_role (ctx_user auth) = "admin".
Proof.
  unfold ProjectsApi.isOwner, ProjectsApi.isAdmin.
  destruct (String.eqb_spec (project_ownerId project) (ctx_userId auth));
    destruct (String.eqb_spec (user_role (ctx_user auth)) "admin");
    simpl; intuition congruence.
Qed.

Section Effects.
Variables isEmail isUrl : string -> bool.

(** A request that does not pass [requireAuth] changes nothing. *)
Lemma handle_unauthenticated (e : Env) (db : Database) (req : Request) :
  (forall auth, requireAuth db (req_authorization req) <> Next auth) ->
  exists message,
    handle isEmail isUrl e db req = (unauthorized message, db).
Proof.
  intros N. unfold handle.
  destruct (requireAuth db (req_authorization req)) as [r|auth|err] eqn:A.
  - revert A. unfold requireAuth.
    repeat break_match; intros H; first [discriminate H | injection H as <-];
      eauto.
  - now contradiction (N auth).
  - now contradiction (MiddlewareFacts.requireAuth_no_raise _ _ _ A).
Qed.

(** What a request can do to the users: nothing, add one (POST, by a
    requester with [manage:users]), replace one by an update of it
    (PUT, by the user or an admin; a role only by an admin), or remove
    another one (DELETE, by a requester with [manage:users]). *)
Lemma users_effect (e : Env) (db : Database) (req : Request)
      (auth : AuthContext) :
  requireAuth db (req_authorization req) = Next auth ->
  let result := handle isEmail isUrl e db req in
  users (snd result) = users db
  \/ (req_route req = POST_users
      /\ user_role (ctx_user auth) = "admin"
      /\ exists input,
           UsersApi.createUserSchema isEmail (req_body req) = Some input
           /\ existsb (fun u => String.eqb (user_email u) (cu_email input))
                      (JsMap.values (users db)) = false
           /\ result
              = (created
                   (DataUser
                      (mkUser (generateId e "usr") (cu_email input)
                              (cu_name input)
                              (orElse (cu_role input) "member")
                              Absent (now e) (now e))),
                 mkDatabase
                   (JsMap.set (users db) (generateId e "usr")
                      (mkUser (generateId e "usr") (cu_email input)
                              (cu_name input)
                              (orElse (cu_role input) "member")
                              Absent (now e) (now e)))
                   (projects db)))
  \/ (exists id user input,
        req_route req = PUT_users_id id
        /\ JsMap.get (users db) id = Some user
        /\ (ctx_userId auth = id \/ user_role (ctx_user auth) = "admin")
        /\ UsersApi.updateUserSchema isUrl (req_body req) = Some input
        /\ (uu_role input = None \/ user_role (ctx_user auth) = "admin")
        /\ result
           = (ok (DataUser (UsersApi.spread user input (now e))),
              mkDatabase
                (JsMap.set (users db) id
                           (UsersApi.spread user input (now e)))
                (projects db)))
  \/ (exists id user,
        req_route req = DELETE_users_id id
        /\ JsMap.get (users db) id = Some user
        /\ ctx_userId auth <> id
        /\ user_role (ctx_user auth) = "admin"
        /\ result
           = (ok (DataDeleted true),
              mkDatabase (JsMap.delete (users db) id) (projects db))).
Proof.
  intros A result. subst result.
  rewrite (ServerFacts.handle_next _ _ _ _ _ _ A).
  destruct (req_route req) as [|id| |id|id| | |id| |id|id] eqn:R.
  - now left.
  - left. apply (ServerFacts.projects_routes_keep_users e db auth id None).
  - left.
    apply (ServerFacts.projects_routes_keep_users e db auth "" (req_body req)).
  - left.
    apply (ServerFacts.projects_routes_keep_users e db auth id (req_body req)).
  - left. apply (ServerFacts.projects_routes_keep_users e db auth id None).
  - left. unfold withPermission. now destruct (requirePermission _ _).
  - now left.
  - left. unfold UsersApi.getUser. now destruct (JsMap.get _ _).
  - unfold withPermission, requirePermission.
    destruct (AuthService.hasPermission (ctx_user auth) "manage:users")
      as [[|]|] eqn:P; [|now left|now left].
    apply manage_users_admin in P.
    unfold UsersApi.createUser.
    destruct (UsersApi.createUserSchema isEmail (req_body req))
      as [input|] eqn:V; [|now left].
    destruct (existsb _ _) eqn:X; [now left|].
    right. left. repeat split; auto. exists input. auto.
  - unfold UsersApi.updateUser.
    destruct (JsMap.get (users db) id) as [user|] eqn:G; [|now left].
    destruct (negb (ctx_userId auth =? id)
              && negb (user_role (ctx_user auth) =? "admin")) eqn:C;
      [now left|].
    destruct (UsersApi.updateUserSchema isUrl (req_body req))
      as [input|] eqn:V; [|now left].
    destruct (truthy (uu_role input)
              && negb (user_role (ctx_user auth) =? "admin")) eqn:T;
      [now left|].
    right. right. left. exists id, user, input. repeat split; auto.
    + destruct (String.eqb_spec (ctx_userId auth) id);
        destruct (String.eqb_spec (user_role (ctx_user auth)) "admin");
        auto; discriminate C.
    + destruct (String.eqb_spec (user_role (ctx_user auth)) "admin");
        auto.
      destruct (uu_role input) as [r|] eqn:Ro; auto.
      rewrite (SchemaFacts.enumerated_truthy _
                 (SchemaFacts.updateUserSchema_role _ _ _ _ V Ro)) in T.
      discriminate T.
  - unfold withPermission, requirePermission.
    destruct (AuthService.hasPermission (ctx_user auth) "manage:users")
      as [[|]|] eqn:P; [|now left|now left].
    apply manage_users_admin in P.
    unfold UsersApi.deleteUser.
    destruct (JsMap.get (users db) id) as [user|] eqn:G; [|now left].
    destruct (String.eqb_spec (ctx_userId auth) id) as [|N]; [now left|].
    right. right. right. exists id, user. auto.
Qed.

(** What a request can do to the projects: nothing, add one owned by
    the requester (POST), or replace a project that is not deleted by an
    update of it or by its deleted form (PUT and DELETE, by the owner or
    an admin). *)
Lemma projects_effect (e : Env) (db : Database) (req : Request)
      (auth : AuthContext) :
  requireAuth db (req_authorization req) = Next auth ->
  let result := handle isEmail isUrl e db req in
  projects (snd result) = projects db
  \/ (req_route req = POST_projects
      /\ exists input,
           ProjectsApi.createProjectSchema (req_body req) = Some input
           /\ result
              = (created
                   (DataProject
                      (mkProject (generateId e "prj") (cp_name input)
                                 (orElse (cp_description input) "")
                                 (ctx_userId auth) active (now e) (now e))),
                 mkDatabase (users db)
                   (JsMap.set (projects db) (generateId e "prj")
                      (mkProject (generateId e "prj") (cp_name input)
                                 (orElse (cp_description input) "")
                                 (ctx_userId auth) active (now e)
                                 (now e)))))
  \/ (exists id project input,
        req_route req = PUT_projects_id id
        /\ JsMap.get (projects db) id = Some project
        /\ project_status project <> deleted
        /\ (project_ownerId project = ctx_userId auth
            \/ user_role (ctx_user auth) = "admin")
        /\ ProjectsApi.updateProjectSchema (req_body req) = Some input
        /\ result
           = (ok (DataProject (ProjectsApi.spread project input (now e))),
              mkDatabase (users db)
                (JsMap.set (projects db) id
                           (ProjectsApi.spread project input (now e)))))
  \/ (exists id project,
        req_route req = DELETE_projects_id id
        /\ JsMap.get (projects db) id = Some project
        /\ project_status project <> deleted
        /\ (project_ownerId project = ctx_userId auth
            \/ user_role (ctx_user auth) = "admin")
        /\ result
           = (ok (DataDeleted true),
              mkDatabase (users db)
                (JsMap.set (projects db) id
                   (mkProject (project_id project) (project_name project)
                      (project_description project)
                      (project_ownerId project) deleted
                      (project_createdAt project) (now e))))).
Proof.
  intros A result. subst result.
  rewrite (ServerFacts.handle_next _ _ _ _ _ _ A).
  destruct (req_route req) as [|id| |id|id| | |id| |id|id] eqn:R.
  - now left.
  - left. unfold ProjectsApi.getProject. now repeat break_match.
  - unfold ProjectsApi.createProject.
    destruct (ProjectsApi.createProjectSchema (req_body req))
      as [input|] eqn:V; [|now left].
    right. left. split; auto. exists input. auto.
  - unfold ProjectsApi.updateProject.
    destruct (ProjectsApi.find db id) as [project|] eqn:F; [|now left].
    destruct (negb (ProjectsApi.isOwner auth project)
              && negb (ProjectsApi.isAdmin auth)) eqn:C; [now left|].
    destruct (ProjectsApi.updateProjectSchema (req_body req))
      as [input|] eqn:V; [|now left].
    apply find_get in F as [G S]. apply owner_or_admin in C.
    right. right. left. exists id, project, input. auto 10.
  - unfold ProjectsApi.deleteProject.
    destruct (ProjectsApi.find db id) as [project|] eqn:F; [|now left].
    destruct (negb (ProjectsApi.isOwner auth project)
              && negb (ProjectsApi.isAdmin auth)) eqn:C; [now left|].
    apply find_get in F as [G S]. apply owner_or_admin in C.
    right. right. right. exists id, project. auto 10.
  - left. unfold withPermission, UsersApi.listUsers.
    now destruct (requirePermission _ _).
  - now left.
  - left. unfold UsersApi.getUser. now destruct (JsMap.get _ _).
  - left. unfold withPermission, UsersApi.createUser.
    destruct (requirePermission _ _); auto. now repeat break_match.
  - left. unfold UsersApi.updateUser. now repeat break_match.
  - left. unfold withPermission, UsersApi.deleteUser.
    destruct (requirePermission _ _); auto. now repeat break_match.
Qed.

End Effects.
End EffectFacts.

(* ================================================================== *)
(** * Lists of values, schemas and responses *)
(* ================================================================== *)

Module StoreFacts.
Import JsMap.

Lemma distinct_NoDup (l : list string) : distinct l = true <-> NoDup l.
Proof.
  induction l as [|x l IH]; simpl.
  - split; [constructor | reflexivity].
  - rewrite andb_true_iff, negb_true_iff, IH. split.
    + intros [N D]. constructor; [|exact D].
      intros I. apply AuthServiceFacts.includes_In in I. congruence.
    + intros H. inversion H as [|? ? N D]; subst. split; [|exact D].
      destruct (AuthService.includes l x) eqn:I; [|reflexivity].
      apply AuthServiceFacts.includes_In in I. contradiction.
Qed.

Section Values.
Context {A B : Type} (f : A -> B).
Implicit Types (m : t A) (k : string) (v : A).

Lemma In_values_set m k v v' :
  In v' (values (set m k v)) -> v' = v \/ In v' (values m).
Proof.
  induction m as [|[k0 v0] m IH]; simpl.
  - intros [<-|[]]. now left.
  - destruct (String.eqb k0 k); simpl; intros [<-|I]; auto.
    destruct (IH I); auto.
Qed.

Lemma In_values_delete m k v' :
  In v' (values (delete m k)) -> In v' (values m).
Proof.
  induction m as [|[k0 v0] m IH]; simpl; auto.
  destruct (String.eqb k0 k); simpl; intros H; [right; auto|].
  destruct H; auto.
Qed.

(** Replacing a value by one with the same image keeps the images. *)
Lemma map_values_set_same m k v u :
  get m k = Some u -> f v = f u ->
  List.map f (values (set m k v)) = List.map f (values m).
Proof.
  intros G E. induction m as [|[k0 v0] m IH]; simpl in *; [discriminate|].
  destruct (String.eqb k0 k); simpl.
  - injection G as ->. now rewrite E.
  - now rewrite IH.
Qed.

Lemma NoDup_set_fresh m k v :
  NoDup (List.map f (values m)) ->
  ~ In (f v) (List.map f (values m)) ->
  NoDup (List.map f (values (set m k v))).
Proof.
  induction m as [|[k0 v0] m IH]; simpl; intros D N.
  - constructor; [intros []|constructor].
  - inversion D as [|? ? N0 D0]; subst.
    destruct (String.eqb k0 k); simpl.
    + constructor; [tauto | exact D0].
    + constructor; [|apply IH; tauto].
      intros I. apply in_map_iff in I as (x & E & I).
      apply In_values_set in I as [->|I];
        [apply N; left; symmetry; exact E|].
      apply N0. rewrite <- E. now apply in_map.
Qed.

Lemma NoDup_delete m k :
  NoDup (List.map f (values m)) ->
  NoDup (List.map f (values (delete m k))).
Proof.
  induction m as [|[k0 v0] m IH]; simpl; intros D; [constructor|].
  inversion D as [|? ? N0 D0]; subst.
  destruct (String.eqb k0 k); simpl; auto.
  constructor; auto.
  intros I. apply in_map_iff in I as (x & E & I).
  apply In_values_delete in I. apply N0. rewrite <- E. now apply in_map.
Qed.

(** A value that is the only one to pass a test is what [find] gives
    after it was stored. *)
Lemma find_set_fresh (p : A -> bool) m k v :
  (forall u, In u (values m) -> p u = false) ->
  p v = true ->
  List.find p (values (set m k v)) = Some v.
Proof.
  intros N P. induction m as [|[k0 v0] m IH]; simpl in *.
  - now rewrite P.
  - destruct (String.eqb k0 k); simpl.
    + now rewrite P.
    + rewrite (N v0) by auto. apply IH. auto.
Qed.

End Values.

Lemma existsb_email (l : list User) (email : string) :
  existsb (fun u => String.eqb (user_email u) email) l = false ->
  ~ In email (List.map user_email l).
Proof.
  intros X I. apply in_map_iff in I as (u & E & I).
  assert (T : existsb (fun u => String.eqb (user_email u) email) l = true).
  { apply existsb_exists. exists u. split; auto.
    now apply String.eqb_eq. }
  congruence.
Qed.

End StoreFacts.

Module SchemaBounds.

Lemma string_check (check : string -> bool) (v : option Json) (s : string) :
  Zod.string_ check v = Some s -> check s = true.
Proof.
  unfold Zod.string_. destruct v as [[| | |s'| |]|]; try discriminate.
  destruct (check s') eqn:C; [|discriminate]. now intros H; injection H as <-.
Qed.

Lemma optional_string_check (check : string -> bool) (v : option Json)
      (s : string) :
  Zod.optional (Zod.string_ check) v = Some (Some s) -> check s = true.
Proof.
  unfold Zod.optional. destruct v as [j|]; [|discriminate].
  destruct (Zod.string_ check (Some j)) as [s'|] eqn:E; simpl;
    [|discriminate].
  intros H. injection H as <-. exact (string_check _ _ _ E).
Qed.

(** A validated input of POST /api/projects: a name of 1 to 100
    characters and a description of at most 500. *)
Lemma createProjectSchema_bounds (body : option Json)
      (input : CreateProjectInput) :
  ProjectsApi.createProjectSchema body = Some input ->
  Zod.min 1 (cp_name input) = true
  /\ Zod.max 100 (cp_name input) = true
  /\ Zod.max 500 (orElse (cp_description input) "") = true.
Proof.
  unfold ProjectsApi.createProjectSchema, Zod.object.
  destruct body as [[| | | | |o]|]; try discriminate.
  destruct (Zod.string_ _ (Zod.member o "name")) as [name|] eqn:N;
    [|discriminate].
  destruct (Zod.default _ _ (Zod.member o "description"))
    as [description|] eqn:D; [|discriminate].
  intros H. injection H as <-. cbn [cp_name cp_description].
  apply string_check in N. apply andb_true_iff in N as [N1 N2].
  repeat split; auto.
  destruct description as [d|]; [|reflexivity].
  assert (C : Zod.max 500 d = true).
  { unfold Zod.default in D.
    destruct (Zod.member o "description");
      exact (optional_string_check _ _ _ D). }
  unfold orElse. destruct (JsString.falsy d); [reflexivity | exact C].
Qed.

(** A validated input of PUT /api/projects/:id. *)
Lemma updateProjectSchema_bounds (body : option Json)
      (input : UpdateProjectInput) :
  ProjectsApi.updateProjectSchema body = Some input ->
  (forall n, up_name input = Some n ->
             Zod.min 1 n = true /\ Zod.max 100 n = true)
  /\ (forall d, up_description input = Some d -> Zod.max 500 d = true).
Proof.
  unfold ProjectsApi.updateProjectSchema, Zod.object.
  destruct body as [[| | | | |o]|]; try discriminate.
  destruct (Zod.optional (Zod.string_ _) (Zod.member o "name"))
    as [name|] eqn:N; [|discriminate].
  destruct (Zod.optional (Zod.string_ _) (Zod.member o "description"))
    as [description|] eqn:D; [|discriminate].
  destruct (Zod.optional (Zod.enum statusEnum) (Zod.member o "status"));
    [|discriminate].
  intros H. injection H as <-. cbn [up_name up_description]. split.
  - intros n ->. apply optional_string_check in N.
    now apply andb_true_iff in N.
  - intros d ->. exact (optional_string_check _ _ _ D).
Qed.

End SchemaBounds.

Module ResponseFacts.

Lemma orElse_nonempty (a : option string) (b : string) :
  b <> "" -> orElse a b <> "".
Proof.
  intros N. unfold orElse. destruct a as [[|c s]|]; simpl; auto.
  discriminate.
Qed.

Lemma parseToken_error (token e : string) :
  AuthService.parseToken token = inl e ->
  e = "Invalid token format" \/ e = "Malformed token".
Proof.
  unfold AuthService.parseToken.
  repeat break_match; intros P;
    first [discriminate P | injection P as <-; auto].
Qed.

(** The result of [validateToken] is a context without an error, or one
    of three errors without a context. *)
Lemma validateToken_shape (db : Database) (token : string) :
  (exists c, AuthService.validateToken db token
             = AuthService.mkResult true (Some c) None)
  \/ (exists e, AuthService.validateToken db token
                = AuthService.mkResult false None (Some e)
                /\ (e = "Invalid token format" \/ e = "Malformed token"
                    \/ e = "User not found")).
Proof.
  unfold AuthService.validateToken.
  destruct (AuthService.parseToken token) as [e|[u s]] eqn:P.
  - right. exists e. split; [reflexivity|].
    destruct (parseToken_error _ _ P); auto.
  - destruct (JsMap.get (users db) u); [left | right]; eauto 6.
Qed.

(** What [requireAuth] responds with. *)
Lemma requireAuth_respond_message (db : Database)
      (authHeader : option string) (r : Response) :
  requireAuth db authHeader = Respond r ->
  exists message,
    r = unauthorized message
    /\ In message ["Authorization header required"; "Bearer token required";
                   "Invalid token format"; "Malformed token";
                   "User not found"].
Proof.
  unfold requireAuth. destruct authHeader as [h|].
  2:{ intros H. injection H as <-. eexists. split; [reflexivity|].
      simpl; auto. }
  destruct (JsString.falsy h).
  { intros H. injection H as <-. eexists. split; [reflexivity|].
    simpl; auto. }
  destruct (negb (JsString.startsWith h "Bearer ")).
  { intros H. injection H as <-. eexists. split; [reflexivity|].
    simpl; auto. }
  destruct (validateToken_shape db (JsString.slice 7 h))
    as [(c & ->) | (e & -> & E)]; [discriminate|].
  cbn [AuthService.valid AuthService.context AuthService.error].
  intros H. injection H as <-. exists e. split.
  - destruct E as [->|[->| ->]]; reflexivity.
  - destruct E as [->|[->| ->]]; simpl; auto 10.
Qed.

(** The response is the failure with status [c]. *)
Ltac failure c :=
  right; eexists c, _; split; [reflexivity|];
  split; [simpl; tauto | cbv; discriminate].

Section Shape.
Variables isEmail isUrl : string -> bool.

(** Every response is a success with status 200 or 201, or one of six
    errors, each with its own status and a message that is not empty. *)
Lemma response_shape (e : Env) (db : Database) (req : Request) :
  let r := fst (handle isEmail isUrl e db req) in
  (exists d, r = ok d \/ r = created d)
  \/ (exists code message,
        r = mkResponse code (Failure
              (match code with
               | 401 => "UNAUTHORIZED"
               | 403 => "FORBIDDEN"
               | 404 => "NOT_FOUND"
               | 400 => "VALIDATION_ERROR"
               | 409 => "CONFLICT"
               | _ => "INTERNAL_ERROR"
               end) message)
        /\ In code [401; 403; 404; 400; 409; 500]
        /\ message <> "").
Proof.
  unfold handle.
  destruct (requireAuth db (req_authorization req)) as [r|auth|err] eqn:A.
  - destruct (ResponseFacts.requireAuth_respond_message _ _ _ A)
      as (m & -> & I).
    right. exists 401, m. split; [reflexivity|]. split; [simpl; auto|].
    simpl in I. intuition (subst; discriminate).
  - destruct (req_route req);
      unfold withPermission, requirePermission,
        ProjectsApi.listProjects, ProjectsApi.getProject,
        ProjectsApi.createProject, ProjectsApi.updateProject,
        ProjectsApi.deleteProject, UsersApi.listUsers, UsersApi.me,
        UsersApi.getUser, UsersApi.createUser, UsersApi.updateUser,
        UsersApi.deleteUser;
      try destruct (AuthService.hasPermission _ _) as [[|]|];
      repeat break_match; cbn [fst];
      first [ left; eexists; left; reflexivity
            | left; eexists; right; reflexivity
            | failure 403 | failure 404 | failure 400 | failure 409
            | failure 500 ].
  - now contradiction (MiddlewareFacts.requireAuth_no_raise _ _ _ A).
Qed.

End Shape.
End ResponseFacts.

(* ================================================================== *)
(** * Further properties: tokens and middleware *)
(* ================================================================== *)

(** X1. Two tokens minted with session ids that hold no separator are
    equal only when they were minted for the same user id with the same
    session id: no token stands for two users. *)
Theorem tokens_are_distinct (userId userId' sessionId sessionId' : string) :
  JsString.contains sessionId "_" = false ->
  JsString.contains sessionId' "_" = false ->
  AuthService.generateSessionToken userId sessionId
  = AuthService.generateSessionToken userId' sessionId' ->
  userId = userId' /\ sessionId = sessionId'.
Proof.
  intros C C' E. unfold AuthService.generateSessionToken in E.
  apply (f_equal (JsString.slice (String.length AuthService.TOKEN_PREFIX)))
    in E.
  rewrite !JsStringFacts.slice_app in E.
  change (userId ++ String "_" sessionId
          = userId' ++ String "_" sessionId') in E.
  pose proof (JsStringFacts.lastIndexOf_app userId _ _ C) as L.
  rewrite E, (JsStringFacts.lastIndexOf_app userId' _ _ C') in L.
  apply Nat2Z.inj in L.
  assert (U : userId = userId').
  { rewrite <- (JsStringFacts.take_app userId (String "_" sessionId)).
    rewrite <- (JsStringFacts.take_app userId' (String "_" sessionId')).
    now rewrite E, L. }
  split; [exact U|].
  rewrite <- (JsStringFacts.slice_app_cons userId sessionId "_").
  rewrite <- (JsStringFacts.slice_app_cons userId' sessionId' "_").
  now rewrite E, L.
Qed.

Lemma tokens_are_distinct_witness :
  "usr_bob" = "usr_bob" /\ "s2" = "s2".
Proof.
  exact (tokens_are_distinct "usr_bob" "usr_bob" "s2" "s2"
           eq_refl eq_refl eq_refl).
Defined.

(** X2. The result of [validateToken] is consistent: it is valid
    exactly when it carries a context and exactly when it carries no
    error. A context names a stored user, found under the user id of the
    token, and the session id of the token. The error is
    'User not found' exactly when the token parses and no user is
    stored under its user id. *)
Theorem validateToken_outcomes (db : Database) (token : string) :
  let result := AuthService.validateToken db token in
  (AuthService.valid result = true
   <-> exists c, AuthService.context result = Some c)
  /\ (AuthService.valid result = true <-> AuthService.error result = None)
  /\ (forall c,
        AuthService.context result = Some c ->
        exists userId,
          token = AuthService.generateSessionToken userId (ctx_sessionId c)
          /\ JsMap.get (users db) userId = Some (ctx_user c)
          /\ ctx_userId c = user_id (ctx_user c))
  /\ (AuthService.error result = Some "User not found"
      <-> exists userId sessionId,
            AuthService.parseToken token = inr (userId, sessionId)
            /\ JsMap.get (users db) userId = None).
Proof.
  unfold AuthService.validateToken.
  destruct (AuthService.parseToken token) as [e|[u s]] eqn:P.
  - cbn. repeat split; try discriminate.
    + intros (c & H). discriminate H.
    + intros H. injection H as ->.
      destruct (ResponseFacts.parseToken_error _ _ P); discriminate.
    + intros (u & s & H & _). discriminate H.
  - destruct (JsMap.get (users db) u) as [user|] eqn:G; cbn.
    + repeat split; eauto; try discriminate.
      * intros c H. injection H as <-. exists u. cbn. repeat split; auto.
        now apply AuthServiceFacts.parseToken_inr in P.
      * intros (u' & s' & H & N). injection H as <- <-. congruence.
    + repeat split; try discriminate; eauto.
      intros (c & H). discriminate H.
Qed.

(** X3. [requireAuth] never throws. When it ends the request, the
    response is a 401 UNAUTHORIZED with one of five messages; the
    fallback message 'Invalid token' is never sent. When it calls
    [next()], the header is "Bearer " followed by a token of a stored
    user, who is the user of the context. *)
Theorem requireAuth_outcomes (db : Database) (authHeader : option string) :
  (forall err, requireAuth db authHeader <> Raise err)
  /\ (forall r,
        requireAuth db authHeader = Respond r ->
        exists message,
          r = mkResponse 401 (Failure "UNAUTHORIZED" message)
          /\ In message
               ["Authorization header required"; "Bearer token required";
                "Invalid token format"; "Malformed token";
                "User not found"])
  /\ (forall auth,
        requireAuth db authHeader = Next auth ->
        exists userId,
          authHeader
          = Some ("Bearer "
                  ++ AuthService.generateSessionToken
                       userId (ctx_sessionId auth))
          /\ JsMap.get (users db) userId = Some (ctx_user auth)
          /\ ctx_userId auth = user_id (ctx_user auth)).
Proof.
  split; [|split].
  - intros err. apply MiddlewareFacts.requireAuth_no_raise.
  - intros r H. exact (ResponseFacts.requireAuth_respond_message _ _ _ H).
  - intros auth. unfold requireAuth.
    destruct authHeader as [h|]; [|discriminate].
    destruct (JsString.falsy h); [discriminate|].
    destruct (JsString.startsWith h "Bearer ") eqn:B; [|discriminate].
    cbn [negb]. apply JsStringFacts.startsWith_split in B.
    change (String.length "Bearer ") with 7 in B.
    destruct (AuthService.validateToken db (JsString.slice 7 h)) eqn:V.
    cbn [AuthService.valid AuthService.context].
    destruct valid; [|discriminate].
    destruct context as [c|]; [|discriminate].
    intros H. injection H as <-.
    unfold AuthService.validateToken in V.
    destruct (AuthService.parseToken (JsString.slice 7 h))
      as [e|[u s]] eqn:P; [discriminate|].
    destruct (JsMap.get (users db) u) as [user|] eqn:G; [|discriminate].
    injection V as <-. exists u. cbn. repeat split; auto.
    apply AuthServiceFacts.parseToken_inr in P as (P & _).
    rewrite B at 1. now rewrite P.
Qed.

Lemma requireAuth_outcomes_witness :
  exists message,
    unauthorized "Bearer token required"
    = mkResponse 401 (Failure "UNAUTHORIZED" message).
Proof.
  destruct (requireAuth_outcomes seedDatabase (Some "Basic abc"))
    as (_ & H & _).
  destruct (H (unauthorized "Bearer token required") eq_refl)
    as (message & E & _).
  exists message. exact E.
Defined.

(** [requireAuth] on a header with the Bearer scheme: the outcome is
    that of [validateToken] on the rest of the header. *)
Lemma requireAuth_bearer (db : Database) (token : string) :
  requireAuth db (Some ("Bearer " ++ token))
  = match AuthService.valid (AuthService.validateToken db token),
          AuthService.context (AuthService.validateToken db token)
    with
    | true, Some context => Next context
    | _, _ =>
        Respond
          (unauthorized
             (orElse (AuthService.error (AuthService.validateToken db token))
                     "Invalid token"))
    end.
Proof.
  unfold requireAuth. rewrite JsStringFacts.startsWith_app.
  change (JsString.slice 7 ("Bearer " ++ token))
    with (JsString.slice (String.length "Bearer ") ("Bearer " ++ token)).
  now rewrite JsStringFacts.slice_app.
Qed.

(** X4. Minting, then authenticating: for a user stored under a
    non-empty id and a session id that is not empty and holds no
    separator, the header "Bearer " followed by the minted token passes
    [requireAuth], with that user and that session id as context. No
    other secret is involved. *)
Theorem minted_token_authenticates (db : Database)
        (userId sessionId : string) (user : User) :
  userId <> "" ->
  sessionId <> "" ->
  JsString.contains sessionId "_" = false ->
  JsMap.get (users db) userId = Some user ->
  requireAuth db
    (Some ("Bearer " ++ AuthService.generateSessionToken userId sessionId))
  = Next (mkAuthContext (user_id user) user sessionId).
Proof.
  intros Hu Hs Hc G. rewrite requireAuth_bearer.
  unfold AuthService.validateToken.
  rewrite (AuthServiceFacts.parseToken_generate _ _ Hu Hs Hc), G.
  reflexivity.
Qed.

Lemma minted_token_authenticates_witness :
  requireAuth seedDatabase
    (Some ("Bearer " ++ AuthService.generateSessionToken "usr_carol" "s3"))
  = Next (mkAuthContext "usr_carol"
            (mkUser "usr_carol" "carol@acme.com" "Carol Kim" "viewer"
               (Value
                  "https://api.dicebear.com/7.x/avataaars/svg?seed=carol")
               "2024-02-15T09:00:00Z" "2024-02-15T09:00:00Z")
            "s3").
Proof.
  apply (minted_token_authenticates seedDatabase "usr_carol" "s3"
           (mkUser "usr_carol" "carol@acme.com" "Carol Kim" "viewer"
              (Value
                 "https://api.dicebear.com/7.x/avataaars/svg?seed=carol")
              "2024-02-15T09:00:00Z" "2024-02-15T09:00:00Z")).
  - discriminate.
  - discriminate.
  - reflexivity.
  - reflexivity.
Defined.

(** In a well-formed store the chain of a route, from [requireAuth]
    on, does not answer 500: the permission lookup of
    [requirePermission] does not throw for the roles that are stored. *)
Lemma handle_no_internal_error
      (isEmail isUrl : string -> bool) (e : Env) (db : Database)
      (req : Request) :
  wellFormed db = true ->
  status (fst (handle isEmail isUrl e db req)) <> 500.
Proof.
  intros W. unfold handle.
  destruct (requireAuth db (req_authorization req)) as [r|auth|err] eqn:A.
  - cbn [fst]. rewrite (MiddlewareFacts.requireAuth_respond _ _ _ A).
    discriminate.
  - destruct (MiddlewareFacts.requireAuth_wellFormed _ _ _ W A) as [_ I].
    destruct (req_route req);
      unfold withPermission, requirePermission,
        ProjectsApi.listProjects, ProjectsApi.getProject,
        ProjectsApi.createProject, ProjectsApi.updateProject,
        ProjectsApi.deleteProject, UsersApi.listUsers, UsersApi.me,
        UsersApi.getUser, UsersApi.createUser, UsersApi.updateUser,
        UsersApi.deleteUser;
      try rewrite (MiddlewareFacts.manage_users_enumerated _ I);
      try destruct (String.eqb (user_role (ctx_user auth)) "admin");
      repeat break_match; cbn [fst status ok created forbidden notFound
                               validationError conflict];
      intros H; discriminate H.
  - now contradiction (MiddlewareFacts.requireAuth_no_raise _ _ _ A).
Qed.

(** X5. Where a 500 comes from: for a request that matches a route of
    the two routers on a well-formed store, the answer is
    500 INTERNAL_ERROR exactly when [express.json()] fails on the body;
    the store is then as before and the route is not run. Once the body
    is parsed, the chain of the route (from [requireAuth] on) never
    answers 500: the permission lookup does not throw for the roles
    that are stored. *)
Theorem internal_error_only_from_body_parser
        (isEmail isUrl : string -> bool) (e : Env) (db : Database)
        (route : Route) (authorization : option string)
        (parsed : JsonBody) :
  wellFormed db = true ->
  let result := app isEmail isUrl e db route authorization parsed in
  (status (fst result) = 500 <-> exists err, parsed = BodyError err)
  /\ (forall err,
        parsed = BodyError err ->
        result
        = (mkResponse 500
             (Failure "INTERNAL_ERROR" "An unexpected error occurred"),
           db))
  /\ (forall body,
        parsed = BodyParsed body ->
        result
        = handle isEmail isUrl e db (mkRequest route authorization body)
        /\ status (fst result) <> 500).
Proof.
  intros W result. subst result. destruct parsed as [body|err]; cbn [app].
  - pose proof (handle_no_internal_error isEmail isUrl e db
                  (mkRequest route authorization body) W) as N.
    split; [|split].
    + split; [intros S; contradiction | intros (err & H); discriminate H].
    + intros err H. discriminate H.
    + intros body' H. injection H as <-. auto.
  - split; [|split].
    + split; [eauto | reflexivity].
    + intros err' _. reflexivity.
    + intros body H. discriminate H.
Qed.

Lemma internal_error_only_from_body_parser_witness :
  status (fst (app anyFormat anyFormat testEnv seedDatabase POST_projects
                 asBob (BodyParsed (Some (JObject [])))))
  <> 500
  /\ status (fst (app anyFormat anyFormat testEnv seedDatabase POST_projects
                    asBob (BodyError "SyntaxError")))
     = 500.
Proof.
  split.
  - destruct (internal_error_only_from_body_parser anyFormat anyFormat
                testEnv seedDatabase POST_projects asBob
                (BodyParsed (Some (JObject []))) eq_refl)
      as (_ & _ & H).
    exact (proj2 (H (Some (JObject [])) eq_refl)).
  - destruct (internal_error_only_from_body_parser anyFormat anyFormat
                testEnv seedDatabase POST_projects asBob
                (BodyError "SyntaxError") eq_refl)
      as (H & _).
    apply H. exists "SyntaxError". reflexivity.
Defined.

(** X6. [requireAdmin] and [requirePermission('manage:users')] let the
    same requesters through, those whose role is admin, whatever the
    role string is; without a context both answer 401. *)
Theorem requireAdmin_agrees_with_manage_users (auth : AuthContext) :
  (requireAdmin (Some auth) = Next tt
   <-> user_role (ctx_user auth) = "admin")
  /\ (requirePermission "manage:users" (Some auth) = Next tt
      <-> user_role (ctx_user auth) = "admin")
  /\ requireAdmin None = Respond (unauthorized "Authentication required")
  /\ requirePermission "manage:users" None
     = Respond (unauthorized "Authentication required").
Proof.
  repeat split.
  - unfold requireAdmin.
    destruct (String.eqb_spec (user_role (ctx_user auth)) "admin");
      [auto | discriminate].
  - intros E. unfold requireAdmin. now rewrite E.
  - unfold requirePermission.
    destruct (AuthService.hasPermission (ctx_user auth) "manage:users")
      as [[|]|] eqn:P; try discriminate.
    intros _. now apply EffectFacts.manage_users_admin.
  - intros E. unfold requirePermission.
    now rewrite (EffectFacts.manage_users_of_admin _ E).
Qed.

(** X7. Every store that the server reaches from the seed data, by any
    sequence of requests, is well formed: each user is stored under its
    own id and has one of the three enumerated roles. *)
Theorem reachable_store_wellFormed
        (isEmail isUrl : string -> bool) (rs : list (Env * Request)) :
  wellFormed (run isEmail isUrl seedDatabase rs) = true.
Proof.
  apply ServerFacts.run_wellFormed. exact ServerFacts.seedDatabase_wellFormed.
Qed.

(* ================================================================== *)
(** * Further properties: the users *)
(* ================================================================== *)

Module UsersFacts.

(** With distinct emails, [find] by email gives the user that has it. *)
Lemma find_unique_email (l : list User) (u : User) :
  NoDup (List.map user_email l) ->
  In u l ->
  List.find (fun x => String.eqb (user_email x) (user_email u)) l = Some u.
Proof.
  induction l as [|x l IH]; simpl; intros D I; [contradiction|].
  inversion D as [|? ? N D']; subst.
  destruct (String.eqb_spec (user_email x) (user_email u)) as [E|E].
  - destruct I as [->|I]; [reflexivity|].
    contradiction N. rewrite E. now apply in_map.
  - destruct I as [->|I]; [congruence|]. now apply IH.
Qed.

Section Requests.
Variables isEmail isUrl : string -> bool.

(** Every request keeps the emails distinct. *)
Lemma handle_emailsUnique (e : Env) (db : Database) (req : Request) :
  emailsUnique db = true ->
  emailsUnique (snd (handle isEmail isUrl e db req)) = true.
Proof.
  intros U.
  destruct (requireAuth db (req_authorization req)) as [r|auth|err] eqn:A.
  - unfold handle. now rewrite A.
  - pose proof (EffectFacts.users_effect isEmail isUrl e db req auth A) as H.
    cbv zeta in H. unfold emailsUnique in *.
    destruct H as [E | [(R & Ad & input & V & X & E)
                       | [(id & user & input & R & G & S & V & T & E)
                         | (id & user & R & G & N & Ad & E)]]];
      rewrite E; [exact U | | |]; cbn [snd users].
    + apply StoreFacts.distinct_NoDup, StoreFacts.NoDup_set_fresh.
      * now apply StoreFacts.distinct_NoDup.
      * cbn [user_email]. now apply StoreFacts.existsb_email.
    + now rewrite (StoreFacts.map_values_set_same user_email _ _ _ _ G).
    + apply StoreFacts.distinct_NoDup, StoreFacts.NoDup_delete.
      now apply StoreFacts.distinct_NoDup.
  - unfold handle. now rewrite A.
Qed.

Lemma run_emailsUnique (rs : list (Env * Request)) (db : Database) :
  emailsUnique db = true ->
  emailsUnique (run isEmail isUrl db rs) = true.
Proof.
  revert db. induction rs as [|[e r] rs IH]; intros db U; simpl; auto.
  apply IH. now apply handle_emailsUnique.
Qed.

End Requests.
End UsersFacts.

(** X8. No two users share an email: every request keeps the emails of
    the stored users distinct, so they are distinct in every store that
    the server reaches from the seed data. POST /api/users refuses a
    taken email and no route changes the email of a user. *)
Theorem emails_stay_unique
        (isEmail isUrl : string -> bool) :
  (forall e db req,
     emailsUnique db = true ->
     emailsUnique (snd (handle isEmail isUrl e db req)) = true)
  /\ forall rs, emailsUnique (run isEmail isUrl seedDatabase rs) = true.
Proof.
  split.
  - intros e db req. apply UsersFacts.handle_emailsUnique.
  - intros rs. now apply UsersFacts.run_emailsUnique.
Qed.

Lemma emails_stay_unique_witness :
  emailsUnique
    (snd (serve seedDatabase
            (mkRequest POST_users asAlice
               (Some (JObject [("email", JString "dave@acme.com");
                               ("name", JString "Dave")])))))
  = true.
Proof.
  exact (proj1 (emails_stay_unique anyFormat anyFormat) testEnv seedDatabase
           (mkRequest POST_users asAlice
              (Some (JObject [("email", JString "dave@acme.com");
                              ("name", JString "Dave")])))
           eq_refl).
Defined.

(** X9. Creating, then looking up: when POST /api/users is answered
    201, the response carries the new user, stored under a generated id
    "usr_...", with an enumerated role, no avatar and both timestamps
    equal; [getUserById] with its id and [getUserByEmail] with its email
    both return it from the new store. *)
Theorem created_user_is_found
        (isEmail isUrl : string -> bool) (e : Env) (db : Database)
        (req : Request) :
  req_route req = POST_users ->
  status (fst (handle isEmail isUrl e db req)) = 201 ->
  exists user,
    handle isEmail isUrl e db req
    = (created (DataUser user),
       mkDatabase (JsMap.set (users db) (user_id user) user) (projects db))
    /\ user_id user = generateId e "usr"
    /\ AuthService.includes enumeratedRoles (user_role user) = true
    /\ user_avatarUrl user = Absent
    /\ user_createdAt user = now e
    /\ user_updatedAt user = now e
    /\ AuthService.getUserById
         (snd (handle isEmail isUrl e db req)) (user_id user) = Some user
    /\ AuthService.getUserByEmail
         (snd (handle isEmail isUrl e db req)) (user_email user) = Some user.
Proof.
  intros R S.
  destruct (requireAuth db (req_authorization req)) as [r|auth|err] eqn:A.
  - revert S. unfold handle. rewrite A. cbn [fst].
    rewrite (MiddlewareFacts.requireAuth_respond _ _ _ A). discriminate.
  - revert S. rewrite (ServerFacts.handle_next _ _ _ _ _ _ A), R.
    unfold withPermission, requirePermission.
    destruct (AuthService.hasPermission (ctx_user auth) "manage:users")
      as [[|]|]; try discriminate.
    unfold UsersApi.createUser.
    destruct (UsersApi.createUserSchema isEmail (req_body req))
      as [input|] eqn:V; [|discriminate].
    destruct (existsb _ _) eqn:X; [discriminate|]. intros _.
    destruct (SchemaFacts.createUserSchema_role _ _ _ V) as (role & Ro & I).
    assert (O : orElse (cu_role input) "member" = role).
    { rewrite Ro. unfold orElse. destruct role; [discriminate I|reflexivity]. }
    eexists. split; [reflexivity|]. cbn [user_id user_role user_avatarUrl
      user_createdAt user_updatedAt user_email snd].
    rewrite O. repeat split; auto.
    + apply JsMapFacts.get_set_same.
    + unfold AuthService.getUserByEmail. cbn [users].
      apply StoreFacts.find_set_fresh; [|apply String.eqb_refl].
      intros u Iu. cbn [user_email].
      destruct (String.eqb (user_email u) (cu_email input)) eqn:Q; auto.
      assert (T : existsb
                    (fun u => String.eqb (user_email u) (cu_email input))
                    (JsMap.values (users db)) = true)
        by (apply existsb_exists; eauto).
      congruence.
  - now contradiction (MiddlewareFacts.requireAuth_no_raise _ _ _ A).
Qed.

Lemma created_user_is_found_witness :
  exists user,
    AuthService.getUserByEmail
      (snd (serve seedDatabase
              (mkRequest POST_users asAlice
                 (Some (JObject [("email", JString "dave@acme.com");
                                 ("name", JString "Dave")])))))
      (user_email user)
    = Some user.
Proof.
  destruct (created_user_is_found anyFormat anyFormat testEnv seedDatabase
              (mkRequest POST_users asAlice
                 (Some (JObject [("email", JString "dave@acme.com");
                                 ("name", JString "Dave")])))
              eq_refl eq_refl)
    as (user & _ & _ & _ & _ & _ & _ & _ & H).
  exists user. exact H.
Defined.

(** X10. A requester who is not an admin can change no other user and
    no role: after any request of such a requester, every user stored
    under another id is as before, and the requester's own record has
    the same id, email and role. *)
Theorem non_admin_changes_only_itself
        (isEmail isUrl : string -> bool) (e : Env) (db : Database)
        (req : Request) (auth : AuthContext) :
  requireAuth db (req_authorization req) = Next auth ->
  user_role (ctx_user auth) <> "admin" ->
  let db' := snd (handle isEmail isUrl e db req) in
  (forall id,
     id <> ctx_userId auth ->
     JsMap.get (users db') id = JsMap.get (users db) id)
  /\ (forall user,
        JsMap.get (users db) (ctx_userId auth) = Some user ->
        exists user',
          JsMap.get (users db') (ctx_userId auth) = Some user'
          /\ user_role user' = user_role user
          /\ user_id user' = user_id user
          /\ user_email user' = user_email user).
Proof.
  intros A N db'. subst db'.
  pose proof (EffectFacts.users_effect isEmail isUrl e db req auth A) as H.
  cbv zeta in H.
  destruct H as [E | [(R & Ad & _)
                     | [(id & user & input & R & G & S & V & T & E)
                       | (id & user & R & G & _ & Ad & _)]]];
    try contradiction.
  - rewrite E. split; eauto.
  - destruct S as [S|S]; [|contradiction].
    destruct T as [T|T]; [|contradiction].
    rewrite E. cbn [snd users]. subst id. split.
    + intros id Ni. now apply JsMapFacts.get_set_other.
    + intros user0 G0. rewrite G in G0. injection G0 as <-.
      eexists. split; [apply JsMapFacts.get_set_same|].
      unfold UsersApi.spread. cbn. now rewrite T.
Qed.

Lemma non_admin_changes_only_itself_witness :
  JsMap.get
    (users (snd (serve seedDatabase
                   (mkRequest (PUT_users_id "usr_bob") asBob
                      (Some (JObject [("name", JString "Robert")]))))))
    "usr_alice"
  = JsMap.get (users seedDatabase) "usr_alice".
Proof.
  destruct (non_admin_changes_only_itself anyFormat anyFormat testEnv
              seedDatabase
              (mkRequest (PUT_users_id "usr_bob") asBob
                 (Some (JObject [("name", JString "Robert")])))
              (mkAuthContext "usr_bob"
                 (mkUser "usr_bob" "bob@acme.com" "Bob Martinez" "member"
                    (Value
                       "https://api.dicebear.com/7.x/avataaars/svg?seed=bob")
                    "2024-02-01T14:30:00Z" "2024-02-01T14:30:00Z")
                 "s2")
              eq_refl)
    as [H _].
  - discriminate.
  - apply (H "usr_alice"). discriminate.
Defined.

(** X11. Deleting a user locks it out: when DELETE /api/users/:id is
    answered 200 in a well-formed store, the user is no longer stored,
    the projects are as before (also those the user owns), and no
    header authenticates as that user on the new store. *)
Theorem deleted_user_is_locked_out
        (isEmail isUrl : string -> bool) (e : Env) (db : Database)
        (req : Request) (id : string) :
  wellFormed db = true ->
  req_route req = DELETE_users_id id ->
  status (fst (handle isEmail isUrl e db req)) = 200 ->
  let db' := snd (handle isEmail isUrl e db req) in
  JsMap.get (users db') id = None
  /\ projects db' = projects db
  /\ (forall other, other <> id ->
        JsMap.get (users db') other = JsMap.get (users db) other)
  /\ (forall authHeader auth,
        requireAuth db' authHeader = Next auth -> ctx_userId auth <> id).
Proof.
  intros W R S db'.
  assert (W' : wellFormed db' = true)
    by (now apply ServerFacts.handle_wellFormed).
  assert (E : db' = mkDatabase (JsMap.delete (users db) id) (projects db)).
  { subst db'. revert S.
    destruct (requireAuth db (req_authorization req)) as [r|auth|err] eqn:A.
    - unfold handle. rewrite A. cbn [fst].
      rewrite (MiddlewareFacts.requireAuth_respond _ _ _ A). discriminate.
    - rewrite (ServerFacts.handle_next _ _ _ _ _ _ A), R.
      unfold withPermission, requirePermission.
      destruct (AuthService.hasPermission (ctx_user auth) "manage:users")
        as [[|]|]; try discriminate.
      unfold UsersApi.deleteUser.
      destruct (JsMap.get (users db) id); [|discriminate].
      destruct (String.eqb (ctx_userId auth) id); [discriminate|].
      reflexivity.
    - now contradiction (MiddlewareFacts.requireAuth_no_raise _ _ _ A). }
  assert (G : JsMap.get (users db') id = None).
  { rewrite E. apply JsMapFacts.get_delete_same. }
  repeat split.
  - exact G.
  - now rewrite E.
  - intros other N. rewrite E. now apply JsMapFacts.get_delete_other.
  - intros authHeader auth A I.
    destruct (MiddlewareFacts.requireAuth_wellFormed _ _ _ W' A) as [G' _].
    congruence.
Qed.

Lemma deleted_user_is_locked_out_witness :
  JsMap.get
    (users (snd (serve seedDatabase
                   (mkRequest (DELETE_users_id "usr_bob") asAlice None))))
    "usr_bob"
  = None.
Proof.
  exact (proj1 (deleted_user_is_locked_out anyFormat anyFormat testEnv
                  seedDatabase
                  (mkRequest (DELETE_users_id "usr_bob") asAlice None)
                  "usr_bob" eq_refl eq_refl eq_refl)).
Defined.

(** X12. The id, the email and the creation time of a user never
    change: after any request whose generated user id is not taken, a
    stored user is either removed, by a DELETE of its id, or stored
    under the same key with the same id, email and [createdAt]. No body
    of PUT /api/users/:id can set them. *)
Theorem user_identity_is_immutable
        (isEmail isUrl : string -> bool) (e : Env) (db : Database)
        (req : Request) (id : string) (user : User) :
  JsMap.get (users db) (generateId e "usr") = None ->
  JsMap.get (users db) id = Some user ->
  let db' := snd (handle isEmail isUrl e db req) in
  (JsMap.get (users db') id = None /\ req_route req = DELETE_users_id id)
  \/ (exists user',
        JsMap.get (users db') id = Some user'
        /\ user_id user' = user_id user
        /\ user_email user' = user_email user
        /\ user_createdAt user' = user_createdAt user).
Proof.
  intros F G db'. subst db'.
  destruct (requireAuth db (req_authorization req)) as [r|auth|err] eqn:A.
  - unfold handle. rewrite A. right. eauto.
  - pose proof (EffectFacts.users_effect isEmail isUrl e db req auth A) as H.
    cbv zeta in H.
    destruct H as [E | [(R & Ad & input & V & X & E)
                       | [(id0 & user0 & input & R & G0 & S & V & T & E)
                         | (id0 & user0 & R & G0 & N & Ad & E)]]];
      rewrite E; cbn [snd users].
    + right. eauto.
    + right. exists user. rewrite JsMapFacts.get_set_other; auto.
      intros ->. congruence.
    + right. destruct (String.eqb_spec id id0) as [->|Ne].
      * rewrite G in G0. injection G0 as <-.
        eexists. split; [apply JsMapFacts.get_set_same|]. cbn. auto.
      * exists user. rewrite JsMapFacts.get_set_other; auto.
    + destruct (String.eqb_spec id id0) as [->|Ne].
      * left. split; [apply JsMapFacts.get_delete_same | exact R].
      * right. exists user. rewrite JsMapFacts.get_delete_other; auto.
  - unfold handle. rewrite A. right. eauto.
Qed.

Lemma user_identity_is_immutable_witness :
  exists user',
    JsMap.get
      (users (snd (serve seedDatabase
                     (mkRequest (PUT_users_id "usr_bob") asAlice
                        (Some (JObject [("email", JString "eve@acme.com");
                                        ("id", JString "usr_eve");
                                        ("name", JString "Eve")]))))))
      "usr_bob"
    = Some user'
    /\ user_id user' = "usr_bob"
    /\ user_email user' = "bob@acme.com".
Proof.
  destruct (user_identity_is_immutable anyFormat anyFormat testEnv
              seedDatabase
              (mkRequest (PUT_users_id "usr_bob") asAlice
                 (Some (JObject [("email", JString "eve@acme.com");
                                 ("id", JString "usr_eve");
                                 ("name", JString "Eve")])))
              "usr_bob"
              (mkUser "usr_bob" "bob@acme.com" "Bob Martinez" "member"
                 (Value
                    "https://api.dicebear.com/7.x/avataaars/svg?seed=bob")
                 "2024-02-01T14:30:00Z" "2024-02-01T14:30:00Z")
              eq_refl eq_refl)
    as [[_ R] | (user' & G & I & E & _)].
  - discriminate R.
  - exists user'. auto.
Defined.

(** X13. Looking a user up by email: [getUserByEmail] returns a stored
    user with that email, and nothing exactly when no stored user has
    it; when the emails are distinct it returns every stored user for
    its own email. *)
Theorem getUserByEmail_finds_the_user (db : Database) (email : string) :
  (forall user,
     AuthService.getUserByEmail db email = Some user ->
     In user (JsMap.values (users db)) /\ user_email user = email)
  /\ (AuthService.getUserByEmail db email = None
      <-> forall user,
            In user (JsMap.values (users db)) -> user_email user <> email)
  /\ (emailsUnique db = true ->
      forall user,
        In user (JsMap.values (users db)) ->
        AuthService.getUserByEmail db (user_email user) = Some user).
Proof.
  unfold AuthService.getUserByEmail. split; [|split].
  - intros user F. apply find_some in F as [I E].
    split; [exact I | now apply String.eqb_eq].
  - split.
    + intros F user I E.
      pose proof (find_none _ _ F user I) as Q. cbn in Q.
      apply String.eqb_neq in Q. contradiction.
    + intros N.
      destruct (find _ _) as [user|] eqn:F; [|reflexivity].
      apply find_some in F as [I E]. apply String.eqb_eq in E.
      now contradiction (N user I).
  - intros U user I. apply UsersFacts.find_unique_email; [|exact I].
    now apply StoreFacts.distinct_NoDup.
Qed.

Lemma getUserByEmail_finds_the_user_witness :
  AuthService.getUserByEmail seedDatabase "bob@acme.com"
  = Some (mkUser "usr_bob" "bob@acme.com" "Bob Martinez" "member"
            (Value "https://api.dicebear.com/7.x/avataaars/svg?seed=bob")
            "2024-02-01T14:30:00Z" "2024-02-01T14:30:00Z").
Proof.
  destruct (getUserByEmail_finds_the_user seedDatabase "bob@acme.com")
    as (_ & _ & H).
  apply (H eq_refl
           (mkUser "usr_bob" "bob@acme.com" "Bob Martinez" "member"
              (Value "https://api.dicebear.com/7.x/avataaars/svg?seed=bob")
              "2024-02-01T14:30:00Z" "2024-02-01T14:30:00Z")).
  simpl. auto.
Defined.

(* ================================================================== *)
(** * Further properties: the projects *)
(* ================================================================== *)

Module ProjectsFacts.

(** [requireAuth] reads the users only. *)
Lemma requireAuth_users (db db' : Database) (authHeader : option string) :
  users db' = users db ->
  requireAuth db' authHeader = requireAuth db authHeader.
Proof.
  intros E. unfold requireAuth, AuthService.validateToken. now rewrite E.
Qed.

Section Requests.
Variables isEmail isUrl : string -> bool.

(** Every request keeps the projects valid. *)
Lemma handle_projectsValid (e : Env) (db : Database) (req : Request) :
  projectsValid db = true ->
  projectsValid (snd (handle isEmail isUrl e db req)) = true.
Proof.
  intros P.
  destruct (requireAuth db (req_authorization req)) as [r|auth|err] eqn:A.
  - unfold handle. now rewrite A.
  - pose proof (EffectFacts.projects_effect isEmail isUrl e db req auth A)
      as H.
    cbv zeta in H. unfold projectsValid in *.
    destruct H as [E | [(R & input & V & E)
                       | [(id & project & input & R & G & S & O & V & E)
                         | (id & project & R & G & S & O & E)]]];
      rewrite E; [exact P | | |]; cbn [snd projects];
      (apply JsMapFacts.forallb_set; [exact P|]).
    + destruct (SchemaBounds.createProjectSchema_bounds _ _ V)
        as (B1 & B2 & B3).
      unfold projectValid. cbn [fst snd project_id project_name
                                project_description].
      now rewrite String.eqb_refl, B1, B2, B3.
    + pose proof (JsMapFacts.forallb_get _ _ _ _ P G) as Q.
      destruct (SchemaBounds.updateProjectSchema_bounds _ _ V) as [Bn Bd].
      unfold projectValid in *. cbn [fst snd] in *.
      apply andb_true_iff in Q as [Q Q4].
      apply andb_true_iff in Q as [Q Q3].
      apply andb_true_iff in Q as [Q1 Q2].
      unfold ProjectsApi.spread.
      cbn [project_id project_name project_description]. rewrite Q1.
      destruct (up_name input) as [n|] eqn:Un;
        destruct (up_description input) as [d|] eqn:Ud;
        try (destruct (Bn n eq_refl) as [-> ->]);
        try rewrite (Bd d eq_refl);
        try rewrite Q2, Q3; try rewrite Q4; reflexivity.
    + pose proof (JsMapFacts.forallb_get _ _ _ _ P G) as Q.
      exact Q.
  - unfold handle. now rewrite A.
Qed.

Lemma run_projectsValid (rs : list (Env * Request)) (db : Database) :
  projectsValid db = true ->
  projectsValid (run isEmail isUrl db rs) = true.
Proof.
  revert db. induction rs as [|[e r] rs IH]; intros db U; simpl; auto.
  apply IH. now apply handle_projectsValid.
Qed.

End Requests.
End ProjectsFacts.

(** X14. A project is never removed and never changes hands: after
    any request whose generated project id is not taken, a stored
    project is still stored under the same key, with the same id, owner
    and [createdAt]; and a project whose status is [deleted] is exactly
    as before, so no route revives it. *)
Theorem project_keeps_owner_and_stays_deleted
        (isEmail isUrl : string -> bool) (e : Env) (db : Database)
        (req : Request) (id : string) (project : Project) :
  JsMap.get (projects db) (generateId e "prj") = None ->
  JsMap.get (projects db) id = Some project ->
  let db' := snd (handle isEmail isUrl e db req) in
  exists project',
    JsMap.get (projects db') id = Some project'
    /\ project_id project' = project_id project
    /\ project_ownerId project' = project_ownerId project
    /\ project_createdAt project' = project_createdAt project
    /\ (project_status project = deleted -> project' = project).
Proof.
  intros F G db'. subst db'.
  destruct (requireAuth db (req_authorization req)) as [r|auth|err] eqn:A.
  - unfold handle. rewrite A. eauto 6.
  - pose proof (EffectFacts.projects_effect isEmail isUrl e db req auth A)
      as H.
    cbv zeta in H.
    destruct H as [E | [(R & input & V & E)
                       | [(id0 & p0 & input & R & G0 & S & O & V & E)
                         | (id0 & p0 & R & G0 & S & O & E)]]];
      rewrite E; cbn [snd projects].
    + eauto 6.
    + exists project. rewrite JsMapFacts.get_set_other; auto.
      intros ->. congruence.
    + destruct (String.eqb_spec id id0) as [->|Ne].
      * rewrite G in G0. injection G0 as <-.
        eexists. split; [apply JsMapFacts.get_set_same|].
        cbn. repeat split; auto. intros D. contradiction.
      * exists project. rewrite JsMapFacts.get_set_other; auto.
    + destruct (String.eqb_spec id id0) as [->|Ne].
      * rewrite G in G0. injection G0 as <-.
        eexists. split; [apply JsMapFacts.get_set_same|].
        cbn. repeat split; auto. intros D. contradiction.
      * exists project. rewrite JsMapFacts.get_set_other; auto.
  - unfold handle. rewrite A. eauto 6.
Qed.

Lemma project_keeps_owner_and_stays_deleted_witness :
  exists project',
    JsMap.get
      (projects (snd (serve afterDelete
                        (mkRequest (PUT_projects_id "prj_mobile") asAlice
                           (Some (JObject [("status", JString "active")]))))))
      "prj_mobile"
    = Some project'
    /\ project_status project' = deleted.
Proof.
  destruct (project_keeps_owner_and_stays_deleted anyFormat anyFormat
              testEnv afterDelete
              (mkRequest (PUT_projects_id "prj_mobile") asAlice
                 (Some (JObject [("status", JString "active")])))
              "prj_mobile"
              (mkProject "prj_mobile" "Mobile App v2"
                 "React Native app for iOS and Android" "usr_bob" deleted
                 "2024-02-05T08:00:00Z" "2024-04-01T00:00:00Z")
              eq_refl eq_refl)
    as (project' & G & _ & _ & _ & D).
  exists project'. split; [exact G|]. now rewrite (D eq_refl).
Defined.

(** X15. A requester who is not an admin cannot change a project of
    another owner: after any request of such a requester whose
    generated project id is not taken, every project owned by someone
    else is exactly as before. *)
Theorem non_owner_cannot_change_project
        (isEmail isUrl : string -> bool) (e : Env) (db : Database)
        (req : Request) (auth : AuthContext) (id : string)
        (project : Project) :
  requireAuth db (req_authorization req) = Next auth ->
  user_role (ctx_user auth) <> "admin" ->
  JsMap.get (projects db) (generateId e "prj") = None ->
  JsMap.get (projects db) id = Some project ->
  project_ownerId project <> ctx_userId auth ->
  JsMap.get (projects (snd (handle isEmail isUrl e db req))) id
  = Some project.
Proof.
  intros A N F G O.
  pose proof (EffectFacts.projects_effect isEmail isUrl e db req auth A) as H.
  cbv zeta in H.
  destruct H as [E | [(R & input & V & E)
                     | [(id0 & p0 & input & R & G0 & S & O0 & V & E)
                       | (id0 & p0 & R & G0 & S & O0 & E)]]];
    rewrite E; cbn [snd projects]; auto.
  - rewrite JsMapFacts.get_set_other; auto. intros ->. congruence.
  - rewrite JsMapFacts.get_set_other; auto. intros ->.
    rewrite G in G0. injection G0 as <-. destruct O0; contradiction.
  - rewrite JsMapFacts.get_set_other; auto. intros ->.
    rewrite G in G0. injection G0 as <-. destruct O0; contradiction.
Qed.

Lemma non_owner_cannot_change_project_witness :
  JsMap.get
    (projects (snd (serve seedDatabase
                      (mkRequest (DELETE_projects_id "prj_website") asBob
                         None))))
    "prj_website"
  = Some (mkProject "prj_website" "Marketing Website"
            "Main company marketing site with CMS integration"
            "usr_alice" active
            "2024-01-20T11:00:00Z" "2024-03-10T15:30:00Z").
Proof.
  apply (non_owner_cannot_change_project anyFormat anyFormat testEnv
           seedDatabase
           (mkRequest (DELETE_projects_id "prj_website") asBob None)
           (mkAuthContext "usr_bob"
              (mkUser "usr_bob" "bob@acme.com" "Bob Martinez" "member"
                 (Value
                    "https://api.dicebear.com/7.x/avataaars/svg?seed=bob")
                 "2024-02-01T14:30:00Z" "2024-02-01T14:30:00Z")
              "s2")).
  - reflexivity.
  - discriminate.
  - reflexivity.
  - reflexivity.
  - discriminate.
Defined.

(** X16. A requester who is not an admin sees its own projects only:
    every project in the response to any request of such a requester,
    whether listed, read, created or updated, is owned by the
    requester. *)
Theorem non_admin_sees_only_own_projects
        (isEmail isUrl : string -> bool) (e : Env) (db : Database)
        (req : Request) (auth : AuthContext) (project : Project) :
  requireAuth db (req_authorization req) = Next auth ->
  user_role (ctx_user auth) <> "admin" ->
  In project (projectsOf (fst (handle isEmail isUrl e db req))) ->
  project_ownerId project = ctx_userId auth.
Proof.
  intros A N.
  assert (Na : ProjectsApi.isAdmin auth = false).
  { unfold ProjectsApi.isAdmin. now apply String.eqb_neq. }
  rewrite (ServerFacts.handle_next _ _ _ _ _ _ A).
  destruct (req_route req) as [|id| |id|id| | |id| |id|id].
  - unfold ProjectsApi.listProjects, projectsOf. cbn [fst ok json].
    intros I. apply filter_In in I as [_ C]. rewrite Na in C.
    destruct (ProjectStatus_eqb _ _); [discriminate|].
    now apply String.eqb_eq.
  - unfold ProjectsApi.getProject.
    destruct (ProjectsApi.find db id) as [p|]; [|intros []].
    rewrite Na, andb_true_r.
    destruct (ProjectsApi.isOwner auth p) eqn:O; [|intros []].
    intros [<-|[]]. now apply String.eqb_eq.
  - unfold ProjectsApi.createProject.
    destruct (ProjectsApi.createProjectSchema _); [|intros []].
    intros [<-|[]]. reflexivity.
  - unfold ProjectsApi.updateProject.
    destruct (ProjectsApi.find db id) as [p|]; [|intros []].
    rewrite Na, andb_true_r.
    destruct (ProjectsApi.isOwner auth p) eqn:O; [|intros []].
    destruct (ProjectsApi.updateProjectSchema _); [|intros []].
    intros [<-|[]]. cbn. now apply String.eqb_eq.
  - unfold ProjectsApi.deleteProject.
    destruct (ProjectsApi.find db id) as [p|]; [|intros []].
    destruct (_ && _); intros [].
  - unfold withPermission, UsersApi.listUsers.
    destruct (requirePermission _ _) as [r| |] eqn:P; try (intros []).
    revert P. unfold requirePermission.
    destruct (AuthService.hasPermission _ _) as [[|]|]; try discriminate.
    intros P. injection P as <-. intros [].
  - intros [].
  - unfold UsersApi.getUser. destruct (JsMap.get _ _); intros [].
  - unfold withPermission.
    destruct (requirePermission _ _) as [r| |] eqn:P; try (intros []).
    + revert P. unfold requirePermission.
      destruct (AuthService.hasPermission _ _) as [[|]|]; try discriminate.
      intros P. injection P as <-. intros [].
    + unfold UsersApi.createUser. repeat break_match; intros [].
  - unfold UsersApi.updateUser. repeat break_match; intros [].
  - unfold withPermission.
    destruct (requirePermission _ _) as [r| |] eqn:P; try (intros []).
    + revert P. unfold requirePermission.
      destruct (AuthService.hasPermission _ _) as [[|]|]; try discriminate.
      intros P. injection P as <-. intros [].
    + unfold UsersApi.deleteUser. repeat break_match; intros [].
Qed.

Lemma non_admin_sees_only_own_projects_witness :
  project_ownerId
    (mkProject "prj_mobile" "Mobile App v2"
       "React Native app for iOS and Android" "usr_bob" active
       "2024-02-05T08:00:00Z" "2024-03-15T12:00:00Z")
  = "usr_bob".
Proof.
  apply (non_admin_sees_only_own_projects anyFormat anyFormat testEnv
           seedDatabase (mkRequest GET_projects asBob None)
           (mkAuthContext "usr_bob"
              (mkUser "usr_bob" "bob@acme.com" "Bob Martinez" "member"
                 (Value
                    "https://api.dicebear.com/7.x/avataaars/svg?seed=bob")
                 "2024-02-01T14:30:00Z" "2024-02-01T14:30:00Z")
              "s2")).
  - reflexivity.
  - discriminate.
  - simpl. auto.
Defined.

(** X17. The routers keep to their own data and reads are pure: a GET
    request never changes the store, a request to the users router
    never changes the projects, and a request to the projects router
    never changes the users, whatever the requester and the body. *)
Theorem routes_keep_to_their_data
        (isEmail isUrl : string -> bool) (e : Env) (db : Database)
        (req : Request) :
  let db' := snd (handle isEmail isUrl e db req) in
  (isGet (req_route req) = true -> db' = db)
  /\ (isUsersRoute (req_route req) = true -> projects db' = projects db)
  /\ (isUsersRoute (req_route req) = false -> users db' = users db).
Proof.
  intros db'. subst db'.
  destruct (requireAuth db (req_authorization req)) as [r|auth|err] eqn:A.
  - unfold handle. rewrite A. auto.
  - pose proof (EffectFacts.users_effect isEmail isUrl e db req auth A) as U.
    pose proof (EffectFacts.projects_effect isEmail isUrl e db req auth A)
      as P.
    cbv zeta in U, P.
    destruct (snd (handle isEmail isUrl e db req)) as [us ps].
    destruct db as [us0 ps0]. cbn [users projects] in *.
    repeat split; intros H.
    + destruct U as [-> | [(R & _) | [(? & ? & ? & R & _)
                                     | (? & ? & R & _)]]];
        try (rewrite R in H; discriminate H).
      destruct P as [-> | [(R & _) | [(? & ? & ? & R & _)
                                     | (? & ? & R & _)]]];
        try (rewrite R in H; discriminate H).
      reflexivity.
    + destruct P as [-> | [(R & _) | [(? & ? & ? & R & _)
                                     | (? & ? & R & _)]]];
        try (rewrite R in H; discriminate H).
      reflexivity.
    + destruct U as [-> | [(R & _) | [(? & ? & ? & R & _)
                                     | (? & ? & R & _)]]];
        try (rewrite R in H; discriminate H).
      reflexivity.
  - unfold handle. rewrite A. auto.
Qed.

Lemma routes_keep_to_their_data_witness :
  projects (snd (serve seedDatabase
                   (mkRequest (DELETE_users_id "usr_bob") asAlice None)))
  = projects seedDatabase.
Proof.
  destruct (routes_keep_to_their_data anyFormat anyFormat testEnv
              seedDatabase
              (mkRequest (DELETE_users_id "usr_bob") asAlice None))
    as (_ & H & _).
  exact (H eq_refl).
Defined.

(** X18. Stored projects stay valid: every request keeps each project
    stored under its own id, with a name of 1 to 100 characters and a
    description of at most 500, as the validation schemas ask; so it is
    in every store that the server reaches from the seed data. *)
Theorem projects_stay_valid
        (isEmail isUrl : string -> bool) :
  (forall e db req,
     projectsValid db = true ->
     projectsValid (snd (handle isEmail isUrl e db req)) = true)
  /\ forall rs, projectsValid (run isEmail isUrl seedDatabase rs) = true.
Proof.
  split.
  - intros e db req. apply ProjectsFacts.handle_projectsValid.
  - intros rs. now apply ProjectsFacts.run_projectsValid.
Qed.

Lemma projects_stay_valid_witness :
  projectsValid
    (snd (serve seedDatabase
            (mkRequest POST_projects asBob
               (Some (JObject [("name", JString "Docs")])))))
  = true.
Proof.
  exact (proj1 (projects_stay_valid anyFormat anyFormat) testEnv
           seedDatabase
           (mkRequest POST_projects asBob
              (Some (JObject [("name", JString "Docs")])))
           eq_refl).
Defined.

(** X19. Creating, then reading: when POST /api/projects is answered
    201, the response carries the new project, active, owned by the
    requester, stored under a generated id "prj_..."; with the same
    header, GET /api/projects/:id on the new store returns that project
    and GET /api/projects lists it. *)
Theorem created_project_is_readable
        (isEmail isUrl : string -> bool) (e e' : Env) (db : Database)
        (req : Request) (auth : AuthContext) :
  requireAuth db (req_authorization req) = Next auth ->
  req_route req = POST_projects ->
  status (fst (handle isEmail isUrl e db req)) = 201 ->
  exists project,
    let db' := mkDatabase (users db)
                 (JsMap.set (projects db) (project_id project) project) in
    handle isEmail isUrl e db req = (created (DataProject project), db')
    /\ project_id project = generateId e "prj"
    /\ project_ownerId project = ctx_userId auth
    /\ project_status project = active
    /\ (forall body,
          handle isEmail isUrl e' db'
            (mkRequest (GET_projects_id (project_id project))
                       (req_authorization req) body)
          = (ok (DataProject project), db'))
    /\ (forall body,
          In project
             (projectsOf
                (fst (handle isEmail isUrl e' db'
                        (mkRequest GET_projects
                                   (req_authorization req) body))))).
Proof.
  intros A R S. revert S.
  rewrite (ServerFacts.handle_next _ _ _ _ _ _ A), R.
  unfold ProjectsApi.createProject.
  destruct (ProjectsApi.createProjectSchema (req_body req)) as [input|];
    [|discriminate].
  intros _.
  exists (mkProject (generateId e "prj") (cp_name input)
                    (orElse (cp_description input) "")
                    (ctx_userId auth) active (now e) (now e)).
  cbv zeta. cbn [project_id project_ownerId project_status].
  assert (A' : forall db' body route,
             users db' = users db ->
             requireAuth db'
               (req_authorization
                  (mkRequest route (req_authorization req) body))
             = Next auth).
  { intros db' body route E. cbn [req_authorization].
    now rewrite (ProjectsFacts.requireAuth_users _ _ _ E). }
  repeat split.
  - intros body.
    erewrite (ServerFacts.handle_next isEmail isUrl e')
      by (apply A'; reflexivity).
    cbn [req_route]. unfold ProjectsApi.getProject, ProjectsApi.find.
    cbn [projects]. rewrite JsMapFacts.get_set_same.
    cbn [project_status ProjectStatus_eqb].
    unfold ProjectsApi.isOwner. cbn [project_ownerId].
    now rewrite String.eqb_refl.
  - intros body.
    erewrite (ServerFacts.handle_next isEmail isUrl e')
      by (apply A'; reflexivity).
    cbn [req_route]. unfold ProjectsApi.listProjects, projectsOf.
    cbn [fst ok json projects]. apply filter_In. split.
    + eapply JsMapFacts.get_values. apply JsMapFacts.get_set_same.
    + cbn [project_status ProjectStatus_eqb project_ownerId].
      rewrite String.eqb_refl. now destruct (ProjectsApi.isAdmin auth).
Qed.

Lemma created_project_is_readable_witness :
  exists project,
    project_name project = "Docs"
    /\ serve (mkDatabase (users seedDatabase)
                (JsMap.set (projects seedDatabase)
                           (project_id project) project))
         (mkRequest (GET_projects_id (project_id project)) asCarol None)
       = (ok (DataProject project),
          mkDatabase (users seedDatabase)
            (JsMap.set (projects seedDatabase)
                       (project_id project) project)).
Proof.
  destruct (created_project_is_readable anyFormat anyFormat testEnv testEnv
              seedDatabase
              (mkRequest POST_projects asCarol
                 (Some (JObject [("name", JString "Docs")])))
              (mkAuthContext "usr_carol"
                 (mkUser "usr_carol" "carol@acme.com" "Carol Kim" "viewer"
                    (Value
                       "https://api.dicebear.com/7.x/avataaars/svg?seed=carol")
                    "2024-02-15T09:00:00Z" "2024-02-15T09:00:00Z")
                 "s3")
              eq_refl eq_refl eq_refl)
    as (project & H).
  cbv zeta in H. destruct H as (C & _ & _ & _ & G & _).
  exists project. split; [|exact (G None)].
  injection C as C _. now subst project.
Defined.

(* ================================================================== *)
(** * Further properties: responses and the API client *)
(* ================================================================== *)

(** X20. The shape of the responses: every response of the two routers
    is a success with status 200 or 201, or an error whose code goes
    with its status, 401 UNAUTHORIZED, 403 FORBIDDEN, 404 NOT_FOUND,
    400 VALIDATION_ERROR, 409 CONFLICT or 500 INTERNAL_ERROR, and whose
    message is not empty. *)
Theorem response_matches_status
        (isEmail isUrl : string -> bool) (e : Env) (db : Database)
        (req : Request) :
  let r := fst (handle isEmail isUrl e db req) in
  match json r with
  | Success _ => status r = 200 \/ status r = 201
  | Failure code message =>
      message <> ""
      /\ In (status r, code)
            [(401, "UNAUTHORIZED"); (403, "FORBIDDEN"); (404, "NOT_FOUND");
             (400, "VALIDATION_ERROR"); (409, "CONFLICT");
             (500, "INTERNAL_ERROR")]
  end.
Proof.
  intros r. subst r.
  pose proof (ResponseFacts.response_shape isEmail isUrl e db req) as H.
  cbv zeta in H.
  destruct H as [(d & [-> | ->]) | (code & message & -> & I & N)].
  - now left.
  - now right.
  - cbn [json status]. split; [exact N|].
    simpl in I.
    destruct I as [<-|[<-|[<-|[<-|[<-|[<-|[]]]]]]]; simpl; auto 10.
Qed.

(** X21. The client tells success from failure as the status does:
    [apiFetch] returns the data exactly when the server answered 200 or
    201; otherwise it throws with the message that the server sent,
    which is never empty, so the fallback 'Request failed' is not
    used. *)
Theorem apiFetch_follows_status
        (isEmail isUrl : string -> bool) (e : Env) (db : Database)
        (req : Request) :
  let r := fst (handle isEmail isUrl e db req) in
  ((exists data, UseApi.apiFetch r = AuthService.Returns data)
   <-> status r = 200 \/ status r = 201)
  /\ (forall data,
        UseApi.apiFetch r = AuthService.Returns data
        -> json r = Success data)
  /\ (forall message,
        UseApi.apiFetch r = AuthService.Throws message ->
        message <> ""
        /\ exists code, json r = Failure code message).
Proof.
  intros r. subst r.
  pose proof (ResponseFacts.response_shape isEmail isUrl e db req) as H.
  cbv zeta in H. unfold UseApi.apiFetch.
  destruct H as [(d & [-> | ->]) | (code & message & -> & I & N)];
    cbn [json status ok created].
  - repeat split; eauto; try discriminate.
    intros data H. now injection H as <-.
  - repeat split; eauto; try discriminate.
    intros data H. now injection H as <-.
  - assert (O : orElse (Some message) "Request failed" = message).
    { unfold orElse. destruct message; [contradiction|reflexivity]. }
    rewrite O. repeat split; try discriminate.
    + intros (data & H). discriminate H.
    + intros [S|S]; subst code; simpl in I; intuition discriminate.
    + injection H as <-. exact N.
    + injection H as <-. eauto.
Qed.

Lemma apiFetch_follows_status_witness :
  json (fst (serve seedDatabase (UseApi.request GET_users_me None)))
  = Success
      (DataUser
         (mkUser "usr_alice" "alice@acme.com" "Alice Chen" "admin"
            (Value "https://api.dicebear.com/7.x/avataaars/svg?seed=alice")
            "2024-01-15T10:00:00Z" "2024-01-15T10:00:00Z")).
Proof.
  destruct (apiFetch_follows_status anyFormat anyFormat testEnv seedDatabase
              (UseApi.request GET_users_me None))
    as (_ & H & _).
  exact (H _ eq_refl).
Defined.



(** X23. The listing is complete: GET /api/projects returns every
    stored project that is not deleted, archived ones too, and that the
    requester owns, and for an admin every project that is not
    deleted. *)
Theorem project_listing_is_complete
        (isEmail isUrl : string -> bool) (e : Env) (db : Database)
        (req : Request) (auth : AuthContext) (id : string)
        (project : Project) :
  requireAuth db (req_authorization req) = Next auth ->
  req_route req = GET_projects ->
  JsMap.get (projects db) id = Some project ->
  project_status project <> deleted ->
  project_ownerId project = ctx_userId auth
  \/ user_role (ctx_user auth) = "admin" ->
  In project (projectsOf (fst (handle isEmail isUrl e db req))).
Proof.
  intros A R G S O.
  rewrite (ServerFacts.handle_next _ _ _ _ _ _ A), R.
  unfold ProjectsApi.listProjects, projectsOf. cbn [fst ok json].
  apply filter_In. split; [exact (JsMapFacts.get_values _ _ _ G)|].
  assert (D : ProjectStatus_eqb (project_status project) deleted = false)
    by (destruct (project_status project) eqn:Q;
        [reflexivity | reflexivity | congruence]).
  rewrite D. unfold ProjectsApi.isAdmin.
  destruct O as [O|O]; apply String.eqb_eq in O; rewrite O;
    [|reflexivity].
  now destruct (String.eqb (user_role (ctx_user auth)) "admin").
Qed.

Lemma project_listing_is_complete_witness :
  In (mkProject "prj_legacy" "Legacy Dashboard"
        "Old admin dashboard - being phased out" "usr_alice" archived
        "2023-06-01T10:00:00Z" "2024-01-15T10:00:00Z")
     (projectsOf (fst (serve seedDatabase
                         (mkRequest GET_projects asAlice None)))).
Proof.
  apply (project_listing_is_complete anyFormat anyFormat testEnv
           seedDatabase (mkRequest GET_projects asAlice None)
           (mkAuthContext "usr_alice"
              (mkUser "usr_alice" "alice@acme.com" "Alice Chen" "admin"
                 (Value
                    "https://api.dicebear.com/7.x/avataaars/svg?seed=alice")
                 "2024-01-15T10:00:00Z" "2024-01-15T10:00:00Z")
              "s1")
           "prj_legacy").
  - reflexivity.
  - reflexivity.
  - reflexivity.
  - discriminate.
  - now left.
Defined.

(** X24. Reading one project follows the ownership rule: for a stored
    project that is not deleted, GET /api/projects/:id returns it to
    its owner and to an admin, and answers 403 FORBIDDEN, not 404, to
    everyone else; for an id with no project it answers 404. The store
    is as before in each case. *)
Theorem project_read_policy
        (isEmail isUrl : string -> bool) (e : Env) (db : Database)
        (req : Request) (auth : AuthContext) (id : string) :
  requireAuth db (req_authorization req) = Next auth ->
  req_route req = GET_projects_id id ->
  let result := handle isEmail isUrl e db req in
  (JsMap.get (projects db) id = None ->
   result = (notFound "Project not found", db))
  /\ (forall project,
        JsMap.get (projects db) id = Some project ->
        project_status project <> deleted ->
        (project_ownerId project = ctx_userId auth
         \/ user_role (ctx_user auth) = "admin" ->
         result = (ok (DataProject project), db))
        /\ (project_ownerId project <> ctx_userId auth ->
            user_role (ctx_user auth) <> "admin" ->
            result = (forbidden "Access denied", db))).
Proof.
  intros A R result. subst result.
  rewrite (ServerFacts.handle_next _ _ _ _ _ _ A), R.
  unfold ProjectsApi.getProject. split.
  - intros G. unfold ProjectsApi.find. now rewrite G.
  - intros project G S.
    rewrite (proj2 (EffectFacts.find_get db id project) (conj G S)).
    split.
    + intros O. apply EffectFacts.owner_or_admin in O. now rewrite O.
    + intros No Na.
      destruct (negb (ProjectsApi.isOwner auth project)
                && negb (ProjectsApi.isAdmin auth)) eqn:C; [reflexivity|].
      apply EffectFacts.owner_or_admin in C. tauto.
Qed.

Lemma project_read_policy_witness :
  serve seedDatabase (mkRequest (GET_projects_id "prj_website") asBob None)
  = (forbidden "Access denied", seedDatabase).
Proof.
  destruct (project_read_policy anyFormat anyFormat testEnv seedDatabase
              (mkRequest (GET_projects_id "prj_website") asBob None)
              (mkAuthContext "usr_bob"
                 (mkUser "usr_bob" "bob@acme.com" "Bob Martinez" "member"
                    (Value
                       "https://api.dicebear.com/7.x/avataaars/svg?seed=bob")
                    "2024-02-01T14:30:00Z" "2024-02-01T14:30:00Z")
                 "s2")
              "prj_website" eq_refl eq_refl)
    as [_ H].
  destruct (H (mkProject "prj_website" "Marketing Website"
                 "Main company marketing site with CMS integration"
                 "usr_alice" active
                 "2024-01-20T11:00:00Z" "2024-03-10T15:30:00Z")
              eq_refl)
    as [_ F].
  - discriminate.
  - apply F; discriminate.
Defined.

(** X25. A created user can sign in: when POST /api/users is answered
    201, a token minted for the generated id, with any session id that
    is not empty and holds no separator, passes [requireAuth] on the new
    store as the new user. *)
Theorem created_user_can_authenticate
        (isEmail isUrl : string -> bool) (e : Env) (db : Database)
        (req : Request) (sessionId : string) :
  req_route req = POST_users ->
  status (fst (handle isEmail isUrl e db req)) = 201 ->
  sessionId <> "" ->
  JsString.contains sessionId "_" = false ->
  exists user,
    fst (handle isEmail isUrl e db req) = created (DataUser user)
    /\ requireAuth (snd (handle isEmail isUrl e db req))
         (Some ("Bearer "
                ++ AuthService.generateSessionToken
                     (generateId e "usr") sessionId))
       = Next (mkAuthContext (generateId e "usr") user sessionId).
Proof.
  intros R S Hs Hc.
  destruct (requireAuth db (req_authorization req)) as [r|auth|err] eqn:A.
  - revert S. unfold handle. rewrite A. cbn [fst].
    rewrite (MiddlewareFacts.requireAuth_respond _ _ _ A). discriminate.
  - revert S. rewrite (ServerFacts.handle_next _ _ _ _ _ _ A), R.
    unfold withPermission, requirePermission.
    destruct (AuthService.hasPermission (ctx_user auth) "manage:users")
      as [[|]|]; try discriminate.
    unfold UsersApi.createUser.
    destruct (UsersApi.createUserSchema isEmail (req_body req))
      as [input|]; [|discriminate].
    destruct (existsb _ _); [discriminate|]. intros _.
    eexists. split; [reflexivity|]. cbn [snd].
    rewrite requireAuth_bearer. unfold AuthService.validateToken.
    rewrite AuthServiceFacts.parseToken_generate by (auto; discriminate).
    cbn [users]. rewrite JsMapFacts.get_set_same. reflexivity.
  - now contradiction (MiddlewareFacts.requireAuth_no_raise _ _ _ A).
Qed.

Lemma created_user_can_authenticate_witness :
  exists user,
    requireAuth
      (snd (serve seedDatabase
              (mkRequest POST_users asAlice
                 (Some (JObject [("email", JString "dave@acme.com");
                                 ("name", JString "Dave")])))))
      (Some ("Bearer "
             ++ AuthService.generateSessionToken
                  (generateId testEnv "usr") "s4"))
    = Next (mkAuthContext (generateId testEnv "usr") user "s4").
Proof.
  destruct (created_user_can_authenticate anyFormat anyFormat testEnv
              seedDatabase
              (mkRequest POST_users asAlice
                 (Some (JObject [("email", JString "dave@acme.com");
                                 ("name", JString "Dave")])))
              "s4" eq_refl eq_refl)
    as (user & _ & H).
  - discriminate.
  - reflexivity.
  - exists user. exact H.
Defined.
